(** * Environment configuration of the digital twin: [src/config.py]

    A shallow embedding of the environment-variable accessor and of the
    class body [EnvVariable], with the properties its specification states.

    Modelling choices.
    - A Python [str] is a Rocq [string]; [str.lower] is the ASCII case
      folding (the letters A-Z go to a-z, every other character is kept).
    - A value of type [Optional[str]] is an [option string]: [None] is
      Python's [None].
    - [os.environ] is a finite map from names to values, passed explicitly.
    - A raised exception is the [Err] branch of a result type; the exception
      carries its class, its message and, for [raise ... from e], its cause.
    - The text of a set inside a message and the wording of one library
      error are left to an [Interpreter] instance. *)

From stdpp Require Import gmap strings list fin_maps.
From Stdlib Require Import Ascii String.

Local Open Scope string_scope.

(** ** Python values and exceptions *)

Inductive exn_class : Type :=
  KeyError | ValueError | TypeError | AttributeError.

(** [Raise c msg] is [raise c(msg)]; [RaiseFrom c msg e] is
    [raise c(msg) from e]. *)
Inductive exn : Type :=
| Raise (cls : exn_class) (msg : string)
| RaiseFrom (cls : exn_class) (msg : string) (cause : exn).

Definition exn_cls (e : exn) : exn_class :=
  match e with
  | Raise c _ | RaiseFrom c _ _ => c
  end.

Definition exn_msg (e : exn) : string :=
  match e with
  | Raise _ m | RaiseFrom _ m _ => m
  end.

Inductive result (A : Type) : Type :=
| Ok (a : A)
| Err (e : exn).

Arguments Ok {A} a.
Arguments Err {A} e.

#[global] Instance result_ret : MRet result := λ A a, Ok a.
#[global] Instance result_bind : MBind result := λ A B f m,
  match m with
  | Ok a => f a
  | Err e => Err e
  end.

(** [try: m except ValueError as e: handler e]. *)
Definition try_except_ValueError {A} (m : result A) (handler : exn → result A)
  : result A :=
  match m with
  | Ok a => Ok a
  | Err e =>
      match exn_cls e with
      | ValueError => handler e
      | _ => Err e
      end
  end.

(** [str.lower] on ASCII text. *)
Definition lower_ascii (c : ascii) : ascii :=
  let n := nat_of_ascii c in
  if (65 <=? n)%nat && (n <=? 90)%nat then ascii_of_nat (n + 32) else c.

Fixpoint lower (s : string) : string :=
  match s with
  | EmptyString => EmptyString
  | String c s' => String (lower_ascii c) (lower s')
  end.

(** [x in (None, "")] for [x : Optional[str]]. *)
Definition in_None_or_empty (x : option string) : bool :=
  match x with
  | None => true
  | Some s => bool_decide (s = "")
  end.

(** [str(default)] for [default : Optional[bool]]. *)
Definition py_str (default : option bool) : string :=
  match default with
  | None => "None"
  | Some true => "True"
  | Some false => "False"
  end.

(** [os.getenv(var_name)]. *)
Definition os_getenv (environ : gmap string string) (var_name : string)
  : option string :=
  environ !! var_name.

(** A [pathlib.Path] value. *)
Inductive Path : Type := PurePath (s : string).

(** The attributes of [class EnvVariable]. *)
Record EnvVariable : Type := {
  STATSNZ_API_KEY : option string;
  LINZ_API_KEY : option string;
  MFE_API_KEY : option string;
  NIWA_API_KEY : option string;
  DEBUG_TRACEBACK : bool;
  TEST_DATABASE_INTEGRATION : bool;
  DATA_DIR : Path;
  DATA_DIR_MODEL_OUTPUT : Path;
  DATA_DIR_GEOSERVER : Path;
  FLOOD_MODEL_DIR : Path;
  POSTGRES_HOST : option string;
  POSTGRES_PORT : option string;
  POSTGRES_DB : option string;
  POSTGRES_USER : option string;
  POSTGRES_PASSWORD : option string;
  MESSAGE_BROKER_HOST : option string;
  GEOSERVER_HOST : option string;
  GEOSERVER_PORT : option string;
  GEOSERVER_INTERNAL_HOST : option string;
  GEOSERVER_INTERNAL_PORT : option string;
  GEOSERVER_ADMIN_NAME : option string;
  GEOSERVER_ADMIN_PASSWORD : option string;
  _LIDAR_DIR : option string;
  _DEM_DIR : option string;
  _LAND_FILE : option string;
  _INSTRUCTIONS_FILE : option string
}.

(** Modelled from the spec: the contents of an environment-definition file,
    which python-dotenv reads; the package is not part of the sources.  A
    file is a sequence of KEY=VALUE lines, here already split into pairs;
    within one file a later line for a name replaces an earlier one. *)
Definition dotenv_values (lines : list (string * string)) : gmap string string :=
  foldl (λ values kv, <[kv.1 := kv.2]> values) ∅ lines.

(** Modelled from the spec: one [load_dotenv] call, which python-dotenv
    provides.  [file] is [None] when the file does not exist; otherwise each
    name of the file is set in the environment unless the environment
    already holds it. *)
Definition load_dotenv (environ : gmap string string)
    (file : option (list (string * string))) : gmap string string :=
  match file with
  | None => environ
  | Some lines =>
      map_fold (λ k v environ,
                  if bool_decide (is_Some (environ !! k)) then environ
                  else <[k := v]> environ)
               environ (dotenv_values lines)
  end.

Definition truth_values : gset string := {[ "true"; "t"; "1" ]}.
Definition false_values : gset string := {[ "false"; "f"; "0" ]}.

(** What the interpreter decides and the source does not.
    - [set_repr]: the text Python prints for a set of strings inside an
      f-string; the order in which a set lists its elements depends on the
      hash seed of the process.
    - [Path_None_msg]: the message of the [TypeError] that
      [pathlib.Path(None)] raises; its wording changes between versions. *)
Class Interpreter : Type := {
  set_repr : gset string → string;
  Path_None_msg : string
}.

Section Config.

Context `{!Interpreter}.

Definition _get_env_variable (environ : gmap string string)
    (var_name : string) (default : option string) (allow_empty : bool)
  : result (option string) :=
  let env_var := os_getenv environ var_name in
  let env_var :=
    if bool_decide (default ≠ None) && in_None_or_empty env_var
    then default else env_var in
  if negb allow_empty && in_None_or_empty env_var
  then Err (Raise KeyError
              ("Environment variable " +:+ var_name
               +:+ " not set, and allow_empty is False"))
  else Ok env_var.

Definition cast_str_to_bool (string : string) : result bool :=
  if bool_decide (lower string ∈ truth_values) then Ok true
  else if bool_decide (lower string ∈ false_values) then Ok false
  else Err (Raise ValueError
              ("String " +:+ string +:+ " being casted to bool but is not in "
               +:+ set_repr truth_values +:+ " or " +:+ set_repr false_values)).

(** [cast_str_to_bool] is applied to whatever [_get_env_variable] returned;
    on [None] its first step, [string.lower()], is an [AttributeError], which
    the [except ValueError] clause lets through. *)
Definition _get_bool_env_variable (environ : gmap string string)
    (var_name : string) (default : option bool) : result bool :=
  env_variable ← _get_env_variable environ var_name (Some (py_str default)) false;
  match env_variable with
  | Some env_variable =>
      try_except_ValueError (cast_str_to_bool env_variable)
        (λ e, Err (RaiseFrom ValueError
                     ("Environment variable " +:+ var_name +:+ "="
                      +:+ env_variable
                      +:+ " cannot be cast to bool due to ValueError.") e))
  | None =>
      Err (Raise AttributeError "'NoneType' object has no attribute 'lower'")
  end.

(** [pathlib.Path(x)]: builds a path value from a string without touching the
    file system.  The value is represented by the string it was built from. *)
Definition pathlib_Path (x : option string) : result Path :=
  match x with
  | Some s => Ok (PurePath s)
  | None => Err (Raise TypeError Path_None_msg)
  end.

(** The body of [class EnvVariable], run once when the module is imported:
    the assignments in source order, the first exception ending the run. *)
Definition EnvVariable_body (environ : gmap string string) : result EnvVariable :=
  STATSNZ_API_KEY ← _get_env_variable environ "STATSNZ_API_KEY" None false;
  LINZ_API_KEY ← _get_env_variable environ "LINZ_API_KEY" None false;
  MFE_API_KEY ← _get_env_variable environ "MFE_API_KEY" None false;
  NIWA_API_KEY ← _get_env_variable environ "NIWA_API_KEY" None false;

  DEBUG_TRACEBACK ← _get_bool_env_variable environ "DEBUG_TRACEBACK" (Some false);
  TEST_DATABASE_INTEGRATION ←
    _get_bool_env_variable environ "TEST_DATABASE_INTEGRATION" (Some true);

  DATA_DIR ← _get_env_variable environ "DATA_DIR" None false ≫= pathlib_Path;
  DATA_DIR_MODEL_OUTPUT ←
    _get_env_variable environ "DATA_DIR_MODEL_OUTPUT" None false ≫= pathlib_Path;
  DATA_DIR_GEOSERVER ←
    _get_env_variable environ "DATA_DIR_GEOSERVER" None false ≫= pathlib_Path;
  FLOOD_MODEL_DIR ←
    _get_env_variable environ "FLOOD_MODEL_DIR" None false ≫= pathlib_Path;

  POSTGRES_HOST ← _get_env_variable environ "POSTGRES_HOST" (Some "localhost") false;
  POSTGRES_PORT ← _get_env_variable environ "POSTGRES_PORT" (Some "5431") false;
  POSTGRES_DB ← _get_env_variable environ "POSTGRES_DB" (Some "db") false;
  POSTGRES_USER ← _get_env_variable environ "POSTGRES_USER" (Some "postgres") false;
  POSTGRES_PASSWORD ← _get_env_variable environ "POSTGRES_PASSWORD" None false;

  MESSAGE_BROKER_HOST ←
    _get_env_variable environ "MESSAGE_BROKER_HOST" (Some "localhost") false;

  GEOSERVER_HOST ←
    _get_env_variable environ "GEOSERVER_HOST" (Some "http://localhost") false;
  GEOSERVER_PORT ← _get_env_variable environ "GEOSERVER_PORT" (Some "8088") false;
  GEOSERVER_INTERNAL_HOST ←
    _get_env_variable environ "GEOSERVER_INTERNAL_HOST" GEOSERVER_HOST false;
  GEOSERVER_INTERNAL_PORT ←
    _get_env_variable environ "GEOSERVER_INTERNAL_PORT" GEOSERVER_PORT false;
  GEOSERVER_ADMIN_NAME ←
    _get_env_variable environ "GEOSERVER_ADMIN_NAME" (Some "admin") false;
  GEOSERVER_ADMIN_PASSWORD ←
    _get_env_variable environ "GEOSERVER_ADMIN_PASSWORD" (Some "geoserver") false;

  _LIDAR_DIR ← _get_env_variable environ "LIDAR_DIR" None false;
  _DEM_DIR ← _get_env_variable environ "DEM_DIR" None false;
  _LAND_FILE ← _get_env_variable environ "LAND_FILE" None true;
  _INSTRUCTIONS_FILE ← _get_env_variable environ "INSTRUCTIONS_FILE" None false;
  mret {|
    STATSNZ_API_KEY := STATSNZ_API_KEY;
    LINZ_API_KEY := LINZ_API_KEY;
    MFE_API_KEY := MFE_API_KEY;
    NIWA_API_KEY := NIWA_API_KEY;
    DEBUG_TRACEBACK := DEBUG_TRACEBACK;
    TEST_DATABASE_INTEGRATION := TEST_DATABASE_INTEGRATION;
    DATA_DIR := DATA_DIR;
    DATA_DIR_MODEL_OUTPUT := DATA_DIR_MODEL_OUTPUT;
    DATA_DIR_GEOSERVER := DATA_DIR_GEOSERVER;
    FLOOD_MODEL_DIR := FLOOD_MODEL_DIR;
    POSTGRES_HOST := POSTGRES_HOST;
    POSTGRES_PORT := POSTGRES_PORT;
    POSTGRES_DB := POSTGRES_DB;
    POSTGRES_USER := POSTGRES_USER;
    POSTGRES_PASSWORD := POSTGRES_PASSWORD;
    MESSAGE_BROKER_HOST := MESSAGE_BROKER_HOST;
    GEOSERVER_HOST := GEOSERVER_HOST;
    GEOSERVER_PORT := GEOSERVER_PORT;
    GEOSERVER_INTERNAL_HOST := GEOSERVER_INTERNAL_HOST;
    GEOSERVER_INTERNAL_PORT := GEOSERVER_INTERNAL_PORT;
    GEOSERVER_ADMIN_NAME := GEOSERVER_ADMIN_NAME;
    GEOSERVER_ADMIN_PASSWORD := GEOSERVER_ADMIN_PASSWORD;
    _LIDAR_DIR := _LIDAR_DIR;
    _DEM_DIR := _DEM_DIR;
    _LAND_FILE := _LAND_FILE;
    _INSTRUCTIONS_FILE := _INSTRUCTIONS_FILE
  |}.


End Config.

(** An interpreter to run the examples with: a set lists its elements in
    the order of [elements]. *)
Definition quote (s : string) : string := "'" +:+ s +:+ "'".

Definition cpython : Interpreter := {|
  set_repr := λ s, "{" +:+ String.concat ", " (quote <$> elements s) +:+ "}";
  Path_None_msg := "expected str, bytes or os.PathLike object, not NoneType"
|}.

(** An environment that sets the variables without a default, the flag
    DEBUG_TRACEBACK and the host of the tile server. *)
Definition example_environ : gmap string string :=
  list_to_map [
    ("STATSNZ_API_KEY", "s-key"); ("LINZ_API_KEY", "l-key");
    ("MFE_API_KEY", "m-key"); ("NIWA_API_KEY", "n-key");
    ("DEBUG_TRACEBACK", "1");
    ("DATA_DIR", "/stored_data");
    ("DATA_DIR_MODEL_OUTPUT", "/stored_data/model_output");
    ("DATA_DIR_GEOSERVER", "/stored_data/geoserver");
    ("FLOOD_MODEL_DIR", "/bg_flood");
    ("POSTGRES_PASSWORD", "secret");
    ("GEOSERVER_HOST", "http://geoserver");
    ("LIDAR_DIR", "lidar"); ("DEM_DIR", "dem");
    ("INSTRUCTIONS_FILE", "instructions.json")
  ].

(** The constants the class body computes from [example_environ]. *)
Definition example_config : EnvVariable := {|
  STATSNZ_API_KEY := Some "s-key";
  LINZ_API_KEY := Some "l-key";
  MFE_API_KEY := Some "m-key";
  NIWA_API_KEY := Some "n-key";
  DEBUG_TRACEBACK := true;
  TEST_DATABASE_INTEGRATION := true;
  DATA_DIR := PurePath "/stored_data";
  DATA_DIR_MODEL_OUTPUT := PurePath "/stored_data/model_output";
  DATA_DIR_GEOSERVER := PurePath "/stored_data/geoserver";
  FLOOD_MODEL_DIR := PurePath "/bg_flood";
  POSTGRES_HOST := Some "localhost";
  POSTGRES_PORT := Some "5431";
  POSTGRES_DB := Some "db";
  POSTGRES_USER := Some "postgres";
  POSTGRES_PASSWORD := Some "secret";
  MESSAGE_BROKER_HOST := Some "localhost";
  GEOSERVER_HOST := Some "http://geoserver";
  GEOSERVER_PORT := Some "8088";
  GEOSERVER_INTERNAL_HOST := Some "http://geoserver";
  GEOSERVER_INTERNAL_PORT := Some "8088";
  GEOSERVER_ADMIN_NAME := Some "admin";
  GEOSERVER_ADMIN_PASSWORD := Some "geoserver";
  _LIDAR_DIR := Some "lidar";
  _DEM_DIR := Some "dem";
  _LAND_FILE := None;
  _INSTRUCTIONS_FILE := Some "instructions.json"
|}.

(** ** Vocabulary of the statements *)

(** The variable is absent from the environment, or present with the empty
    string as its value: the two cases [env_var in (None, "")] accepts. *)
Definition unset_or_empty (environ : gmap string string) (var_name : string)
  : Prop :=
  environ !! var_name = None ∨ environ !! var_name = Some "".

(** The path-typed attributes of the class, by name. *)
Definition path_constants : list string :=
  ["DATA_DIR"; "DATA_DIR_MODEL_OUTPUT"; "DATA_DIR_GEOSERVER"; "FLOOD_MODEL_DIR"].

Definition path_attribute (cfg : EnvVariable) (name : string) : option Path :=
  if bool_decide (name = "DATA_DIR") then Some (DATA_DIR cfg)
  else if bool_decide (name = "DATA_DIR_MODEL_OUTPUT")
  then Some (DATA_DIR_MODEL_OUTPUT cfg)
  else if bool_decide (name = "DATA_DIR_GEOSERVER")
  then Some (DATA_DIR_GEOSERVER cfg)
  else if bool_decide (name = "FLOOD_MODEL_DIR") then Some (FLOOD_MODEL_DIR cfg)
  else None.

(** [part] occurs in the message. *)
Definition mentions (msg part : string) : Prop :=
  ∃ pre post, msg = pre +:+ part +:+ post.

(** ** Vocabulary for the class body as a whole *)

(** The names the class body resolves without a default and without
    [allow_empty], in source order. *)
Definition required_variables : list string :=
  ["STATSNZ_API_KEY"; "LINZ_API_KEY"; "MFE_API_KEY"; "NIWA_API_KEY";
   "DATA_DIR"; "DATA_DIR_MODEL_OUTPUT"; "DATA_DIR_GEOSERVER"; "FLOOD_MODEL_DIR";
   "POSTGRES_PASSWORD"; "LIDAR_DIR"; "DEM_DIR"; "INSTRUCTIONS_FILE"].

(** The names the class body resolves as booleans. *)
Definition flag_variables : list string :=
  ["DEBUG_TRACEBACK"; "TEST_DATABASE_INTEGRATION"].

(** Every name the class body passes to [os.getenv]. *)
Definition variables_read : list string :=
  ["STATSNZ_API_KEY"; "LINZ_API_KEY"; "MFE_API_KEY"; "NIWA_API_KEY";
   "DEBUG_TRACEBACK"; "TEST_DATABASE_INTEGRATION";
   "DATA_DIR"; "DATA_DIR_MODEL_OUTPUT"; "DATA_DIR_GEOSERVER"; "FLOOD_MODEL_DIR";
   "POSTGRES_HOST"; "POSTGRES_PORT"; "POSTGRES_DB"; "POSTGRES_USER";
   "POSTGRES_PASSWORD"; "MESSAGE_BROKER_HOST";
   "GEOSERVER_HOST"; "GEOSERVER_PORT"; "GEOSERVER_INTERNAL_HOST";
   "GEOSERVER_INTERNAL_PORT"; "GEOSERVER_ADMIN_NAME"; "GEOSERVER_ADMIN_PASSWORD";
   "LIDAR_DIR"; "DEM_DIR"; "LAND_FILE"; "INSTRUCTIONS_FILE"].

(** A flag variable the boolean resolution accepts: absent or empty, or set
    to a spelling of one of the six literals. *)
Definition flag_ok (environ : gmap string string) (var_name : string) : Prop :=
  unset_or_empty environ var_name
  ∨ ∃ s, environ !! var_name = Some s
         ∧ (lower s ∈ truth_values ∨ lower s ∈ false_values).

(** The string attributes assigned from a required variable, each with the
    name of its variable. *)
Definition required_attributes (cfg : EnvVariable)
  : list (string * option string) :=
  [("STATSNZ_API_KEY", STATSNZ_API_KEY cfg);
   ("LINZ_API_KEY", LINZ_API_KEY cfg);
   ("MFE_API_KEY", MFE_API_KEY cfg);
   ("NIWA_API_KEY", NIWA_API_KEY cfg);
   ("POSTGRES_PASSWORD", POSTGRES_PASSWORD cfg);
   ("LIDAR_DIR", _LIDAR_DIR cfg);
   ("DEM_DIR", _DEM_DIR cfg);
   ("INSTRUCTIONS_FILE", _INSTRUCTIONS_FILE cfg)].

(** The attributes assigned with a literal default: the name of the
    variable, the default, the attribute. *)
Definition defaulted_attributes (cfg : EnvVariable)
  : list (string * string * option string) :=
  [("POSTGRES_HOST", "localhost", POSTGRES_HOST cfg);
   ("POSTGRES_PORT", "5431", POSTGRES_PORT cfg);
   ("POSTGRES_DB", "db", POSTGRES_DB cfg);
   ("POSTGRES_USER", "postgres", POSTGRES_USER cfg);
   ("MESSAGE_BROKER_HOST", "localhost", MESSAGE_BROKER_HOST cfg);
   ("GEOSERVER_HOST", "http://localhost", GEOSERVER_HOST cfg);
   ("GEOSERVER_PORT", "8088", GEOSERVER_PORT cfg);
   ("GEOSERVER_ADMIN_NAME", "admin", GEOSERVER_ADMIN_NAME cfg);
   ("GEOSERVER_ADMIN_PASSWORD", "geoserver", GEOSERVER_ADMIN_PASSWORD cfg)].

(** Every string attribute but [_LAND_FILE]. *)
Definition checked_attributes (cfg : EnvVariable) : list (option string) :=
  [STATSNZ_API_KEY cfg; LINZ_API_KEY cfg; MFE_API_KEY cfg; NIWA_API_KEY cfg;
   POSTGRES_HOST cfg; POSTGRES_PORT cfg; POSTGRES_DB cfg; POSTGRES_USER cfg;
   POSTGRES_PASSWORD cfg; MESSAGE_BROKER_HOST cfg;
   GEOSERVER_HOST cfg; GEOSERVER_PORT cfg; GEOSERVER_INTERNAL_HOST cfg;
   GEOSERVER_INTERNAL_PORT cfg; GEOSERVER_ADMIN_NAME cfg;
   GEOSERVER_ADMIN_PASSWORD cfg;
   _LIDAR_DIR cfg; _DEM_DIR cfg; _INSTRUCTIONS_FILE cfg].

(** The upper case of an ASCII letter, and the spellings of a lowercase
    text: every way to write each of its letters in lower or upper case. *)
Definition upper_ascii (c : ascii) : ascii :=
  let n := nat_of_ascii c in
  if (97 <=? n)%nat && (n <=? 122)%nat then ascii_of_nat (n - 32) else c.

Fixpoint spellings (lit : string) : list string :=
  match lit with
  | EmptyString => [EmptyString]
  | String c rest =>
      (String c <$> spellings rest)
      ++ (if bool_decide (upper_ascii c = c) then []
          else String (upper_ascii c) <$> spellings rest)
  end.

(** * Properties *)

(** A successful sequence of assignments, taken apart into its steps. *)
Ltac result_inv H :=
  repeat match type of H with
  | match ?m with Ok _ => _ | Err _ => _ end = Ok _ =>
      let E := fresh "E" in destruct m eqn:E; [|discriminate H]
  end.

Ltac rewrite_Ok :=
  match goal with
  | E : ?m = Ok _ |- context [?m] => rewrite E
  end.

Section Properties.

Context `{!Interpreter}.

(** ** The test [env_var in (None, "")] *)

Lemma in_None_or_empty_lookup (environ : gmap string string) var_name :
  in_None_or_empty (os_getenv environ var_name) = true
  ↔ unset_or_empty environ var_name.
Proof.
  unfold os_getenv, unset_or_empty.
  destruct (environ !! var_name) as [s|]; simpl.
  - rewrite bool_decide_eq_true. split.
    + intros ->. by right.
    + intros [?|[= ->]]; done.
  - split; [by left|done].
Qed.

Lemma in_None_or_empty_Some (s : string) :
  s ≠ "" → in_None_or_empty (Some s) = false.
Proof. intros Hs. simpl. by apply bool_decide_eq_false. Qed.

(** ** String resolution, case by case *)

Lemma _get_env_variable_value (environ : gmap string string) var_name s
    default allow_empty :
  environ !! var_name = Some s → s ≠ "" →
  _get_env_variable environ var_name default allow_empty = Ok (Some s).
Proof.
  intros Hget Hs. unfold _get_env_variable, os_getenv. rewrite Hget.
  rewrite (in_None_or_empty_Some s Hs), andb_false_r.
  by rewrite (in_None_or_empty_Some s Hs), andb_false_r.
Qed.

Lemma _get_env_variable_default (environ : gmap string string) var_name d
    allow_empty :
  unset_or_empty environ var_name →
  _get_env_variable environ var_name (Some d) allow_empty
  = if negb allow_empty && bool_decide (d = "")
    then Err (Raise KeyError ("Environment variable " +:+ var_name
                              +:+ " not set, and allow_empty is False"))
    else Ok (Some d).
Proof.
  intros Hunset%in_None_or_empty_lookup. unfold _get_env_variable.
  rewrite Hunset. by rewrite bool_decide_true.
Qed.

Lemma _get_env_variable_no_default (environ : gmap string string) var_name
    allow_empty :
  unset_or_empty environ var_name →
  _get_env_variable environ var_name None allow_empty
  = if allow_empty then Ok (environ !! var_name)
    else Err (Raise KeyError ("Environment variable " +:+ var_name
                              +:+ " not set, and allow_empty is False")).
Proof.
  intros Hunset%in_None_or_empty_lookup. unfold _get_env_variable.
  rewrite bool_decide_false by (intros Hne; by apply Hne). simpl.
  rewrite Hunset. by destruct allow_empty.
Qed.

(** Every variable is either unset-or-empty or has a non-empty value. *)
Lemma unset_or_empty_dec (environ : gmap string string) var_name :
  unset_or_empty environ var_name
  ∨ ∃ s, environ !! var_name = Some s ∧ s ≠ "".
Proof.
  unfold unset_or_empty. destruct (environ !! var_name) as [s|]; [|by left; left].
  destruct (decide (s = "")) as [->|Hs]; [by left; right|right; eauto].
Qed.

(** The [KeyError] is raised exactly when nothing non-empty is at hand and
    empty values are not allowed. *)
Lemma _get_env_variable_KeyError (environ : gmap string string) var_name
    default allow_empty e :
  _get_env_variable environ var_name default allow_empty = Err e
  ↔ e = Raise KeyError ("Environment variable " +:+ var_name
                        +:+ " not set, and allow_empty is False")
    ∧ unset_or_empty environ var_name
    ∧ (default = None ∨ default = Some "")
    ∧ allow_empty = false.
Proof.
  destruct (unset_or_empty_dec environ var_name) as [Hu|(s & Hs & Hne)].
  - destruct default as [d|].
    + rewrite (_get_env_variable_default _ _ _ _ Hu).
      destruct allow_empty; simpl.
      { split; [done|]. by intros (_ & _ & _ & ?). }
      case_bool_decide as Hd.
      * split; [intros [= <-]; subst; auto|]. by intros (-> & _).
      * split; [done|]. intros (_ & _ & [?|[= ?]] & _); done.
    + rewrite (_get_env_variable_no_default _ _ _ Hu).
      destruct allow_empty.
      * split; [done|]. by intros (_ & _ & _ & ?).
      * split; [intros [= <-]; auto|]. by intros (-> & _).
  - rewrite (_get_env_variable_value _ _ _ _ _ Hs Hne).
    split; [done|]. intros (_ & [Hu|Hu] & _); congruence.
Qed.

(** A successful resolution without [allow_empty] is a non-empty string. *)
Lemma _get_env_variable_Ok_nonempty (environ : gmap string string) var_name
    default r :
  _get_env_variable environ var_name default false = Ok r →
  ∃ s, r = Some s ∧ s ≠ ""
       ∧ (environ !! var_name = Some s
          ∨ unset_or_empty environ var_name ∧ default = Some s).
Proof.
  destruct (unset_or_empty_dec environ var_name) as [Hu|(s & Hs & Hne)].
  - destruct default as [d|].
    + rewrite (_get_env_variable_default _ _ _ _ Hu). simpl.
      case_bool_decide; [done|]. intros [= <-]. eauto 10.
    + by rewrite (_get_env_variable_no_default _ _ _ Hu).
  - rewrite (_get_env_variable_value _ _ _ _ _ Hs Hne). intros [= <-]. eauto 10.
Qed.

Lemma mentions_middle (pre part post : string) :
  mentions (pre +:+ part +:+ post) part.
Proof. by exists pre, post. Qed.

(** ** Boolean coercion *)

Lemma truth_values_spec (s : string) :
  s ∈ truth_values ↔ s = "true" ∨ s = "t" ∨ s = "1".
Proof. unfold truth_values. rewrite !elem_of_union, !elem_of_singleton. tauto. Qed.

Lemma false_values_spec (s : string) :
  s ∈ false_values ↔ s = "false" ∨ s = "f" ∨ s = "0".
Proof. unfold false_values. rewrite !elem_of_union, !elem_of_singleton. tauto. Qed.

Lemma truth_false_disjoint (s : string) :
  s ∈ truth_values → s ∈ false_values → False.
Proof.
  rewrite truth_values_spec, false_values_spec.
  intros [-> | [-> | ->]] [E | [E | E]]; discriminate E.
Qed.

Lemma lower_ascii_idemp (c : ascii) : lower_ascii (lower_ascii c) = lower_ascii c.
Proof. destruct c as [[] [] [] [] [] [] [] []]; reflexivity. Qed.

Lemma lower_idemp (s : string) : lower (lower s) = lower s.
Proof. induction s as [|c s IH]; simpl; [done|]. by rewrite lower_ascii_idemp, IH. Qed.

(** The outcome of the two membership tests, as the three exits of
    [cast_str_to_bool]. *)
Lemma cast_str_to_bool_cases (s : string) :
  (lower s ∈ truth_values ∧ cast_str_to_bool s = Ok true)
  ∨ (lower s ∈ false_values ∧ cast_str_to_bool s = Ok false)
  ∨ ((lower s ∉ truth_values) ∧ (lower s ∉ false_values)
     ∧ cast_str_to_bool s
       = Err (Raise ValueError
                ("String " +:+ s +:+ " being casted to bool but is not in "
                 +:+ set_repr truth_values +:+ " or "
                 +:+ set_repr false_values))).
Proof.
  unfold cast_str_to_bool. repeat case_bool_decide; eauto.
Qed.

(** Coercion looks at the lowercase of its argument only. *)
Lemma cast_str_to_bool_lower (s : string) (b : bool) :
  cast_str_to_bool (lower s) = Ok b ↔ cast_str_to_bool s = Ok b.
Proof.
  unfold cast_str_to_bool. rewrite lower_idemp.
  repeat case_bool_decide; split; intros E; done || discriminate E.
Qed.

(** ** The claims on coercion and on string resolution *)

(** C1.  For every string, [cast_str_to_bool] returns [True] exactly when the
    lowercase of the string is one of "true", "t", "1", returns [False]
    exactly when it is one of "false", "f", "0", and raises a [ValueError]
    for every other string; the literals of the specification, in their
    upper and lower case spellings, are accepted, and "yes", "2" and the
    empty string are refused. *)
Theorem cast_str_to_bool_spec (s : string) :
  (cast_str_to_bool s = Ok true ↔ lower s ∈ truth_values)
  ∧ (cast_str_to_bool s = Ok false ↔ lower s ∈ false_values)
  ∧ ((∃ e, cast_str_to_bool s = Err e ∧ exn_cls e = ValueError)
     ↔ (lower s ∉ truth_values) ∧ (lower s ∉ false_values))
  ∧ (s ∈ ["true"; "True"; "TRUE"; "t"; "T"; "1"] → cast_str_to_bool s = Ok true)
  ∧ (s ∈ ["false"; "False"; "FALSE"; "f"; "F"; "0"] → cast_str_to_bool s = Ok false)
  ∧ (s ∈ ["yes"; "2"; ""] → ∃ e, cast_str_to_bool s = Err e ∧ exn_cls e = ValueError).
Proof.
  assert (Hcases := cast_str_to_bool_cases s).
  assert (Hdisj := truth_false_disjoint (lower s)).
  split_and!.
  - split.
    + destruct Hcases as [[? _]|[[_ E]|(_ & _ & E)]]; [done|..];
        rewrite E; discriminate.
    + intros Ht. destruct Hcases as [[_ E]|[[Hf _]|(Hn & _)]]; [done|..].
      * destruct (Hdisj Ht Hf).
      * destruct (Hn Ht).
  - split.
    + destruct Hcases as [[_ E]|[[? _]|(_ & _ & E)]]; [|done|];
        rewrite E; discriminate.
    + intros Hf. destruct Hcases as [[Ht _]|[[_ E]|(_ & Hn & _)]]; [|done|].
      * destruct (Hdisj Ht Hf).
      * destruct (Hn Hf).
  - split.
    + intros (e & He & _).
      destruct Hcases as [[_ E]|[[_ E]|(? & ? & _)]]; [congruence..|done].
    + intros [Hnt Hnf].
      destruct Hcases as [[Ht _]|[[Hf _]|(_ & _ & E)]]; [done..|].
      rewrite E. eauto.
  - rewrite !elem_of_cons, elem_of_nil.
    intros [-> | [-> | [-> | [-> | [-> | [-> | []]]]]]]; reflexivity.
  - rewrite !elem_of_cons, elem_of_nil.
    intros [-> | [-> | [-> | [-> | [-> | [-> | []]]]]]]; reflexivity.
  - rewrite !elem_of_cons, elem_of_nil.
    intros [-> | [-> | [-> | []]]]; eexists; split; reflexivity.
Qed.

(** C2.  When the variable is absent or empty, no default is given and
    [allow_empty] is false, [_get_env_variable] raises a [KeyError] whose
    message contains the name of the variable; for STATSNZ_API_KEY, the first
    assignment of the class body, that error ends the class body. *)
Theorem missing_required_variable (environ : gmap string string) var_name :
  unset_or_empty environ var_name →
  let msg := "Environment variable " +:+ var_name
             +:+ " not set, and allow_empty is False" in
  _get_env_variable environ var_name None false = Err (Raise KeyError msg)
  ∧ mentions msg var_name
  ∧ (var_name = "STATSNZ_API_KEY" →
     EnvVariable_body environ = Err (Raise KeyError msg)).
Proof.
  intros Hu msg.
  assert (_get_env_variable environ var_name None false
          = Err (Raise KeyError msg)) as E
    by apply (_get_env_variable_no_default _ _ false Hu).
  split_and!; [done|apply mentions_middle|].
  intros ->. unfold EnvVariable_body. by rewrite E.
Qed.

(** C3.  With a default [d]: when the variable is absent or empty, the result
    is [d] itself, provided [d] is non-empty or [allow_empty] is true (so an
    empty default is handed out under [allow_empty]); when the variable has a
    non-empty value, that value is the result whatever the default. *)
Theorem default_or_value (environ : gmap string string) var_name
    (d : string) allow_empty :
  (unset_or_empty environ var_name → d ≠ "" ∨ allow_empty = true →
   _get_env_variable environ var_name (Some d) allow_empty = Ok (Some d))
  ∧ (∀ s default, environ !! var_name = Some s → s ≠ "" →
     _get_env_variable environ var_name default allow_empty = Ok (Some s)).
Proof.
  split.
  - intros Hu Hd. rewrite (_get_env_variable_default _ _ _ _ Hu).
    destruct Hd as [Hd| ->]; [|done].
    by rewrite (bool_decide_false _ Hd), andb_false_r.
  - intros s default. apply _get_env_variable_value.
Qed.

(** ** Boolean resolution *)

Lemma append_assoc (a b c : string) : (a +:+ b) +:+ c = a +:+ b +:+ c.
Proof.
  induction a as [|x a IH]; [done|].
  change (String x ((a +:+ b) +:+ c) = String x (a +:+ b +:+ c)).
  by rewrite IH.
Qed.

Lemma py_str_nonempty (default : option bool) : py_str default ≠ "".
Proof. by destruct default as [[]|]. Qed.

(** A failed coercion is a [ValueError], so the [except] clause takes it. *)
Lemma cast_str_to_bool_Err (s : string) e :
  cast_str_to_bool s = Err e → exn_cls e = ValueError.
Proof.
  destruct (cast_str_to_bool_cases s) as [[_ E]|[[_ E]|(_ & _ & E)]];
    rewrite E; [discriminate..|]. by intros [= <-].
Qed.

(** The string stage of the boolean resolution never fails: the default
    handed down is one of "None", "True", "False". *)
Lemma _get_bool_env_variable_raw (environ : gmap string string) var_name
    default :
  ∃ raw,
    _get_env_variable environ var_name (Some (py_str default)) false
    = Ok (Some raw)
    ∧ (environ !! var_name = Some raw ∧ raw ≠ ""
       ∨ unset_or_empty environ var_name ∧ raw = py_str default).
Proof.
  destruct (unset_or_empty_dec environ var_name) as [Hu|(s & Hs & Hne)].
  - exists (py_str default). split; [|by right].
    rewrite (_get_env_variable_default _ _ _ _ Hu).
    by rewrite (bool_decide_false _ (py_str_nonempty default)).
  - exists s. split; [|by left]. by apply _get_env_variable_value.
Qed.

(** The message of a failed boolean resolution contains the name of the
    variable and the string that was refused. *)
Lemma bool_message_mentions (var_name raw : string) :
  let msg := "Environment variable " +:+ var_name +:+ "=" +:+ raw
             +:+ " cannot be cast to bool due to ValueError." in
  mentions msg var_name ∧ mentions msg raw.
Proof.
  intros msg. split; [apply mentions_middle|].
  exists ("Environment variable " +:+ var_name +:+ "="),
    " cannot be cast to bool due to ValueError.".
  unfold msg. by rewrite !append_assoc.
Qed.

(** C4.  [_get_bool_env_variable] resolves the variable as a string with the
    default [str(default)], which always yields a string [raw] (the value of
    the variable when it is non-empty, the stringified default otherwise),
    and coerces [raw]: a successful coercion is the result, a failed one is
    re-raised as a [ValueError] whose message contains the name of the
    variable and [raw].  Every error of the boolean resolution is of that
    kind; the [KeyError] of a missing variable never comes out of it. *)
Theorem bool_resolution (environ : gmap string string) var_name default :
  ∃ raw,
    _get_env_variable environ var_name (Some (py_str default)) false
    = Ok (Some raw)
    ∧ (environ !! var_name = Some raw ∧ raw ≠ ""
       ∨ unset_or_empty environ var_name ∧ raw = py_str default)
    ∧ (∀ b, cast_str_to_bool raw = Ok b →
         _get_bool_env_variable environ var_name default = Ok b)
    ∧ (∀ e, cast_str_to_bool raw = Err e →
         _get_bool_env_variable environ var_name default
         = Err (RaiseFrom ValueError
                  ("Environment variable " +:+ var_name +:+ "=" +:+ raw
                   +:+ " cannot be cast to bool due to ValueError.") e))
    ∧ (∀ e, _get_bool_env_variable environ var_name default = Err e →
         exn_cls e = ValueError
         ∧ mentions (exn_msg e) var_name ∧ mentions (exn_msg e) raw)
    ∧ (∀ msg, _get_bool_env_variable environ var_name default
              ≠ Err (Raise KeyError msg)).
Proof.
  destruct (_get_bool_env_variable_raw environ var_name default)
    as (raw & Eraw & Hraw).
  assert (∀ e, cast_str_to_bool raw = Err e →
            _get_bool_env_variable environ var_name default
            = Err (RaiseFrom ValueError
                     ("Environment variable " +:+ var_name +:+ "=" +:+ raw
                      +:+ " cannot be cast to bool due to ValueError.") e))
    as Hfail.
  { intros e E. unfold _get_bool_env_variable. rewrite Eraw. simpl.
    rewrite E. simpl. by rewrite (cast_str_to_bool_Err _ _ E). }
  assert (∀ e, _get_bool_env_variable environ var_name default = Err e →
            exn_cls e = ValueError
            ∧ mentions (exn_msg e) var_name ∧ mentions (exn_msg e) raw)
    as Herr.
  { intros e He.
    destruct (cast_str_to_bool raw) as [b|e'] eqn:E.
    - unfold _get_bool_env_variable in He. rewrite Eraw in He. simpl in He.
      by rewrite E in He.
    - rewrite (Hfail _ eq_refl) in He. injection He as <-.
      split; [done|]. apply bool_message_mentions. }
  exists raw. split_and!; [done|done| |done|done|].
  - intros b E. unfold _get_bool_env_variable. rewrite Eraw. simpl. by rewrite E.
  - intros msg E. by destruct (Herr _ E) as [? _].
Qed.

(** C9.  With [default=None] and the variable absent or empty, the string
    stage does not raise: it hands out "None", the text of the default; the
    coercion of "None" fails, and the call raises the [ValueError] of a
    failed coercion, whose message gives the raw value as None. *)
Theorem bool_default_None (environ : gmap string string) var_name :
  unset_or_empty environ var_name →
  _get_env_variable environ var_name (Some (py_str None)) false
  = Ok (Some "None")
  ∧ ∃ cause,
      cast_str_to_bool "None" = Err cause
      ∧ exn_cls cause = ValueError
      ∧ _get_bool_env_variable environ var_name None
        = Err (RaiseFrom ValueError
                 ("Environment variable " +:+ var_name
                  +:+ "=None cannot be cast to bool due to ValueError.")
                 cause).
Proof.
  intros Hu.
  assert (_get_env_variable environ var_name (Some (py_str None)) false
          = Ok (Some "None")) as Eraw
    by (by rewrite (_get_env_variable_default _ _ _ _ Hu)).
  split; [done|]. eexists. split_and!; [reflexivity..|].
  unfold _get_bool_env_variable. by rewrite Eraw.
Qed.

(** ** The class body *)

(** The class body succeeds with [cfg] exactly when each assignment, in its
    own right, yields the attribute of [cfg] it defines. *)
Lemma EnvVariable_body_Ok (environ : gmap string string) (cfg : EnvVariable) :
  EnvVariable_body environ = Ok cfg ↔
  _get_env_variable environ "STATSNZ_API_KEY" None false = Ok (STATSNZ_API_KEY cfg)
  ∧ _get_env_variable environ "LINZ_API_KEY" None false = Ok (LINZ_API_KEY cfg)
  ∧ _get_env_variable environ "MFE_API_KEY" None false = Ok (MFE_API_KEY cfg)
  ∧ _get_env_variable environ "NIWA_API_KEY" None false = Ok (NIWA_API_KEY cfg)
  ∧ _get_bool_env_variable environ "DEBUG_TRACEBACK" (Some false)
    = Ok (DEBUG_TRACEBACK cfg)
  ∧ _get_bool_env_variable environ "TEST_DATABASE_INTEGRATION" (Some true)
    = Ok (TEST_DATABASE_INTEGRATION cfg)
  ∧ (_get_env_variable environ "DATA_DIR" None false ≫= pathlib_Path)
    = Ok (DATA_DIR cfg)
  ∧ (_get_env_variable environ "DATA_DIR_MODEL_OUTPUT" None false ≫= pathlib_Path)
    = Ok (DATA_DIR_MODEL_OUTPUT cfg)
  ∧ (_get_env_variable environ "DATA_DIR_GEOSERVER" None false ≫= pathlib_Path)
    = Ok (DATA_DIR_GEOSERVER cfg)
  ∧ (_get_env_variable environ "FLOOD_MODEL_DIR" None false ≫= pathlib_Path)
    = Ok (FLOOD_MODEL_DIR cfg)
  ∧ _get_env_variable environ "POSTGRES_HOST" (Some "localhost") false
    = Ok (POSTGRES_HOST cfg)
  ∧ _get_env_variable environ "POSTGRES_PORT" (Some "5431") false
    = Ok (POSTGRES_PORT cfg)
  ∧ _get_env_variable environ "POSTGRES_DB" (Some "db") false
    = Ok (POSTGRES_DB cfg)
  ∧ _get_env_variable environ "POSTGRES_USER" (Some "postgres") false
    = Ok (POSTGRES_USER cfg)
  ∧ _get_env_variable environ "POSTGRES_PASSWORD" None false
    = Ok (POSTGRES_PASSWORD cfg)
  ∧ _get_env_variable environ "MESSAGE_BROKER_HOST" (Some "localhost") false
    = Ok (MESSAGE_BROKER_HOST cfg)
  ∧ _get_env_variable environ "GEOSERVER_HOST" (Some "http://localhost") false
    = Ok (GEOSERVER_HOST cfg)
  ∧ _get_env_variable environ "GEOSERVER_PORT" (Some "8088") false
    = Ok (GEOSERVER_PORT cfg)
  ∧ _get_env_variable environ "GEOSERVER_INTERNAL_HOST" (GEOSERVER_HOST cfg) false
    = Ok (GEOSERVER_INTERNAL_HOST cfg)
  ∧ _get_env_variable environ "GEOSERVER_INTERNAL_PORT" (GEOSERVER_PORT cfg) false
    = Ok (GEOSERVER_INTERNAL_PORT cfg)
  ∧ _get_env_variable environ "GEOSERVER_ADMIN_NAME" (Some "admin") false
    = Ok (GEOSERVER_ADMIN_NAME cfg)
  ∧ _get_env_variable environ "GEOSERVER_ADMIN_PASSWORD" (Some "geoserver") false
    = Ok (GEOSERVER_ADMIN_PASSWORD cfg)
  ∧ _get_env_variable environ "LIDAR_DIR" None false = Ok (_LIDAR_DIR cfg)
  ∧ _get_env_variable environ "DEM_DIR" None false = Ok (_DEM_DIR cfg)
  ∧ _get_env_variable environ "LAND_FILE" None true = Ok (_LAND_FILE cfg)
  ∧ _get_env_variable environ "INSTRUCTIONS_FILE" None false
    = Ok (_INSTRUCTIONS_FILE cfg).
Proof.
  split.
  - intros Hb.
    unfold EnvVariable_body, mbind, result_bind, mret, result_ret in Hb |- *.
    result_inv Hb. injection Hb as <-. simpl. by split_and!.
  - destruct cfg. simpl. intros Hall. destruct_and!.
    unfold EnvVariable_body, mbind, result_bind, mret, result_ret in *.
    by repeat rewrite_Ok.
Qed.

(** Names the hypotheses that come out of [EnvVariable_body_Ok]. *)
Ltac body_equations Hb :=
  apply EnvVariable_body_Ok in Hb; destruct_and!.

Ltac equation_of name E :=
  match goal with
  | E' : _get_env_variable _ name _ _ = Ok _ |- _ => rename E' into E
  | E' : _get_bool_env_variable _ name _ = Ok _ |- _ => rename E' into E
  | E' : _get_env_variable _ name _ _ ≫= _ = Ok _ |- _ => rename E' into E
  end.

(** A variable that is absent or empty resolves to its non-empty default. *)
Lemma _get_env_variable_default_Ok (environ : gmap string string) var_name d r :
  unset_or_empty environ var_name →
  _get_env_variable environ var_name (Some d) false = Ok r →
  d ≠ "" ∧ r = Some d.
Proof.
  intros Hu. rewrite (_get_env_variable_default _ _ _ _ Hu). simpl.
  case_bool_decide; [done|]. by intros [= <-].
Qed.

(** Two assignments in a row, the second with the result of the first as its
    default: when the second variable is absent or empty, both results are
    the same. *)
Lemma resolved_default (environ : gmap string string) outer_name outer_default
    inner_name (outer inner : option string) :
  _get_env_variable environ outer_name outer_default false = Ok outer →
  _get_env_variable environ inner_name outer false = Ok inner →
  unset_or_empty environ inner_name →
  inner = outer.
Proof.
  intros Eo Ei Hu.
  apply _get_env_variable_Ok_nonempty in Eo as (s & -> & _ & _).
  by destruct (_get_env_variable_default_Ok _ _ _ _ Hu Ei) as [_ ->].
Qed.

(** The class body succeeds on [example_environ]. *)
Lemma EnvVariable_body_example :
  EnvVariable_body example_environ = Ok example_config.
Proof. vm_compute. reflexivity. Qed.

(** ** The claims on the constants *)

(** C5.  When the class body succeeds and GEOSERVER_INTERNAL_HOST is absent
    (or empty), the attribute GEOSERVER_INTERNAL_HOST is the attribute
    GEOSERVER_HOST, which was resolved before it; likewise for the ports; and
    GEOSERVER_HOST and GEOSERVER_PORT, when absent, are "http://localhost" and
    "8088". *)
Theorem geoserver_internal_fallback (environ : gmap string string) cfg :
  EnvVariable_body environ = Ok cfg →
  (unset_or_empty environ "GEOSERVER_INTERNAL_HOST" →
   GEOSERVER_INTERNAL_HOST cfg = GEOSERVER_HOST cfg)
  ∧ (unset_or_empty environ "GEOSERVER_INTERNAL_PORT" →
     GEOSERVER_INTERNAL_PORT cfg = GEOSERVER_PORT cfg)
  ∧ (unset_or_empty environ "GEOSERVER_HOST" →
     GEOSERVER_HOST cfg = Some "http://localhost")
  ∧ (unset_or_empty environ "GEOSERVER_PORT" →
     GEOSERVER_PORT cfg = Some "8088").
Proof.
  intros Hb. body_equations Hb.
  equation_of "GEOSERVER_HOST" Eh. equation_of "GEOSERVER_PORT" Ep.
  equation_of "GEOSERVER_INTERNAL_HOST" Eih.
  equation_of "GEOSERVER_INTERNAL_PORT" Eip.
  split_and!.
  - by apply (resolved_default _ _ _ _ _ _ Eh Eih).
  - by apply (resolved_default _ _ _ _ _ _ Ep Eip).
  - intros Hu. by destruct (_get_env_variable_default_Ok _ _ _ _ Hu Eh).
  - intros Hu. by destruct (_get_env_variable_default_Ok _ _ _ _ Hu Ep).
Qed.

(** C7.  POSTGRES_PORT absent resolves to "5431"; DEBUG_TRACEBACK set to "1"
    resolves to [True], and absent to its default [False]: for the
    assignments taken alone, and for the attributes of a class body that
    succeeds. *)
Theorem example_constants (environ : gmap string string) :
  (environ !! "POSTGRES_PORT" = None →
   _get_env_variable environ "POSTGRES_PORT" (Some "5431") false
   = Ok (Some "5431"))
  ∧ (environ !! "DEBUG_TRACEBACK" = Some "1" →
     _get_bool_env_variable environ "DEBUG_TRACEBACK" (Some false) = Ok true)
  ∧ (environ !! "DEBUG_TRACEBACK" = None →
     _get_bool_env_variable environ "DEBUG_TRACEBACK" (Some false) = Ok false)
  ∧ (∀ cfg, EnvVariable_body environ = Ok cfg →
       (environ !! "POSTGRES_PORT" = None → POSTGRES_PORT cfg = Some "5431")
       ∧ (environ !! "DEBUG_TRACEBACK" = Some "1" → DEBUG_TRACEBACK cfg = true)
       ∧ (environ !! "DEBUG_TRACEBACK" = None → DEBUG_TRACEBACK cfg = false)).
Proof.
  assert (environ !! "POSTGRES_PORT" = None →
          _get_env_variable environ "POSTGRES_PORT" (Some "5431") false
          = Ok (Some "5431")) as Hport.
  { intros Hn. by rewrite _get_env_variable_default by by left. }
  assert (environ !! "DEBUG_TRACEBACK" = Some "1" →
          _get_bool_env_variable environ "DEBUG_TRACEBACK" (Some false)
          = Ok true) as Hone.
  { intros Hs. unfold _get_bool_env_variable.
    by rewrite (_get_env_variable_value _ _ "1") by done. }
  assert (environ !! "DEBUG_TRACEBACK" = None →
          _get_bool_env_variable environ "DEBUG_TRACEBACK" (Some false)
          = Ok false) as Hnone.
  { intros Hn. unfold _get_bool_env_variable.
    by rewrite _get_env_variable_default by by left. }
  split_and!; [done..|].
  intros cfg Hb. body_equations Hb.
  equation_of "POSTGRES_PORT" Ep. equation_of "DEBUG_TRACEBACK" Ed.
  split_and!.
  - intros Hn. rewrite (Hport Hn) in Ep. by injection Ep.
  - intros Hs. rewrite (Hone Hs) in Ed. by injection Ed.
  - intros Hn. rewrite (Hnone Hn) in Ed. by injection Ed.
Qed.

(** The expression [pathlib.Path(_get_env_variable(name))], by cases on the
    variable. *)
Lemma path_resolution (environ : gmap string string) var_name :
  (unset_or_empty environ var_name ∧
   (_get_env_variable environ var_name None false ≫= pathlib_Path)
   = Err (Raise KeyError ("Environment variable " +:+ var_name
                          +:+ " not set, and allow_empty is False")))
  ∨ (∃ s, environ !! var_name = Some s ∧ s ≠ "" ∧
          _get_env_variable environ var_name None false = Ok (Some s) ∧
          (_get_env_variable environ var_name None false ≫= pathlib_Path)
          = Ok (PurePath s)).
Proof.
  destruct (unset_or_empty_dec environ var_name) as [Hu|(s & Hs & Hne)].
  - left. split; [done|].
    by rewrite (_get_env_variable_no_default _ _ false Hu).
  - right. exists s. split_and!; [done..| |].
    + by apply _get_env_variable_value.
    + by rewrite (_get_env_variable_value _ _ _ _ _ Hs Hne).
Qed.

(** C8.  For each of DATA_DIR, DATA_DIR_MODEL_OUTPUT, DATA_DIR_GEOSERVER and
    FLOOD_MODEL_DIR: the assignment raises the [KeyError] of the required
    string resolution when the variable is absent or empty, and the class
    body then fails; otherwise it yields the path built from the value of
    the variable, whatever that string is; and in a class body that
    succeeds the attribute is that path. *)
Theorem path_typed_constants (environ : gmap string string) var_name :
  var_name ∈ path_constants →
  (unset_or_empty environ var_name →
   _get_env_variable environ var_name None false
   = Err (Raise KeyError ("Environment variable " +:+ var_name
                          +:+ " not set, and allow_empty is False"))
   ∧ (_get_env_variable environ var_name None false ≫= pathlib_Path)
     = Err (Raise KeyError ("Environment variable " +:+ var_name
                            +:+ " not set, and allow_empty is False"))
   ∧ ∃ e, EnvVariable_body environ = Err e)
  ∧ (∀ s, environ !! var_name = Some s → s ≠ "" →
       _get_env_variable environ var_name None false = Ok (Some s)
       ∧ (_get_env_variable environ var_name None false ≫= pathlib_Path)
         = Ok (PurePath s))
  ∧ (∀ cfg, EnvVariable_body environ = Ok cfg →
       ∃ s, environ !! var_name = Some s ∧ s ≠ ""
            ∧ path_attribute cfg var_name = Some (PurePath s)).
Proof.
  intros Hin.
  assert (∀ cfg, EnvVariable_body environ = Ok cfg →
            ∃ s, environ !! var_name = Some s ∧ s ≠ ""
                 ∧ path_attribute cfg var_name = Some (PurePath s)) as Hattr.
  { intros cfg Hb. body_equations Hb.
    equation_of "DATA_DIR" E1. equation_of "DATA_DIR_MODEL_OUTPUT" E2.
    equation_of "DATA_DIR_GEOSERVER" E3. equation_of "FLOOD_MODEL_DIR" E4.
    unfold path_constants in Hin.
    rewrite !elem_of_cons, elem_of_nil in Hin.
    destruct Hin as [-> | [-> | [-> | [-> | []]]]];
      match goal with
      | E : _get_env_variable _ ?n _ _ ≫= _ = Ok _ |- context [_ !! ?n] =>
          destruct (path_resolution environ n)
            as [[_ E']|(s & Hs & Hne & _ & E')];
          rewrite E' in E; [discriminate E|];
          injection E as E; exists s; split_and!; [done..|];
          by rewrite E
      end. }
  split_and!; [|by intros s Hs Hne; split;
                   [apply _get_env_variable_value
                   |rewrite (_get_env_variable_value _ _ _ _ _ Hs Hne)]
               |done].
  intros Hu. split_and!.
  - by rewrite (_get_env_variable_no_default _ _ false Hu).
  - by rewrite (_get_env_variable_no_default _ _ false Hu).
  - destruct (EnvVariable_body environ) as [cfg|e] eqn:Hb; [|by exists e].
    destruct (Hattr cfg eq_refl) as (s & Hs & Hne & _).
    destruct Hu as [Hu|Hu]; congruence.
Qed.

(** C10.  With [allow_empty] true, no default and the variable absent,
    [_get_env_variable] returns [None], not a string; so the attribute
    [_LAND_FILE] of a class body that succeeds is [None], not the empty
    string, when LAND_FILE is absent. *)
Theorem allow_empty_absent_is_None (environ : gmap string string) var_name :
  environ !! var_name = None →
  _get_env_variable environ var_name None true = Ok None
  ∧ (var_name = "LAND_FILE" →
     ∀ cfg, EnvVariable_body environ = Ok cfg →
            _LAND_FILE cfg = None ∧ _LAND_FILE cfg ≠ Some "").
Proof.
  intros Hn.
  assert (_get_env_variable environ var_name None true = Ok None) as E.
  { rewrite _get_env_variable_no_default by by left. by rewrite Hn. }
  split; [done|]. intros -> cfg Hb. body_equations Hb.
  equation_of "LAND_FILE" El. rewrite E in El. injection El as <-. done.
Qed.

(** ** Loading the environment files *)

(** The environment after [load_dotenv]: the values it had, and the values of
    the file under the names it did not have. *)
Lemma load_dotenv_lookup (environ : gmap string string) file k :
  load_dotenv environ file !! k
  = match environ !! k with
    | Some v => Some v
    | None =>
        match file with
        | Some lines => dotenv_values lines !! k
        | None => None
        end
    end.
Proof.
  destruct file as [lines|]; simpl; [|by destruct (environ !! k)].
  revert k. apply (map_fold_weak_ind (λ r (m : gmap string string),
    ∀ k, r !! k = match environ !! k with
                  | Some v => Some v
                  | None => m !! k
                  end)).
  - intros k. rewrite lookup_empty. by destruct (environ !! k).
  - intros i x m r Hi IH k. pose proof (IH i) as IHi. rewrite Hi in IHi.
    case_bool_decide as Hr.
    + rewrite IH. destruct (environ !! k) eqn:Ek; [done|].
      destruct (decide (i = k)) as [->|Hne].
      * rewrite Ek in IHi. rewrite IHi in Hr. by destruct Hr.
      * by rewrite lookup_insert_ne.
    + destruct (decide (i = k)) as [->|Hne].
      * rewrite !lookup_insert_eq.
        destruct (environ !! k); [|done].
        destruct Hr. rewrite IHi. eauto.
      * rewrite !lookup_insert_ne by done. apply IH.
Qed.


(** A name the process environment does not hold takes its value from the
    first file that has it. *)
Lemma load_dotenv_fallback (environ : gmap string string) lines k v :
  environ !! k = None → dotenv_values lines !! k = Some v →
  load_dotenv environ (Some lines) !! k = Some v.
Proof. intros Hk Hv. by rewrite load_dotenv_lookup, Hk. Qed.

(** Resolution reads the environment at the one name it is given. *)
Lemma _get_env_variable_ext (environ environ' : gmap string string) var_name
    default allow_empty :
  environ !! var_name = environ' !! var_name →
  _get_env_variable environ var_name default allow_empty
  = _get_env_variable environ' var_name default allow_empty.
Proof. intros E. unfold _get_env_variable, os_getenv. by rewrite E. Qed.


End Properties.

(** ** Runs on concrete inputs *)

Lemma missing_required_variable_witness :
  unset_or_empty ∅ "STATSNZ_API_KEY"
  ∧ _get_env_variable ∅ "STATSNZ_API_KEY" None false
    = Err (Raise KeyError
             "Environment variable STATSNZ_API_KEY not set, and allow_empty is False")
  ∧ @EnvVariable_body cpython ∅
    = Err (Raise KeyError
             "Environment variable STATSNZ_API_KEY not set, and allow_empty is False").
Proof.
  assert (unset_or_empty ∅ "STATSNZ_API_KEY") as Hu by (left; reflexivity).
  split; [exact Hu|].
  destruct (@missing_required_variable cpython ∅ "STATSNZ_API_KEY" Hu)
    as (E & _ & Hbody).
  split; [exact E|exact (Hbody eq_refl)].
Defined.

Lemma default_or_value_witness :
  _get_env_variable ∅ "POSTGRES_PORT" (Some "5431") false = Ok (Some "5431")
  ∧ _get_env_variable {["LAND_FILE" := ""]} "LAND_FILE" (Some "") true
    = Ok (Some "")
  ∧ _get_env_variable {["POSTGRES_PORT" := "5432"]} "POSTGRES_PORT"
      (Some "5431") false = Ok (Some "5432").
Proof.
  split_and!.
  - apply (proj1 (default_or_value ∅ "POSTGRES_PORT" "5431" false)).
    + left; reflexivity.
    + left; discriminate.
  - apply (proj1 (default_or_value {["LAND_FILE" := ""]} "LAND_FILE" "" true)).
    + right; reflexivity.
    + right; reflexivity.
  - apply (proj2 (default_or_value {["POSTGRES_PORT" := "5432"]}
                    "POSTGRES_PORT" "5431" false)).
    + reflexivity.
    + discriminate.
Defined.

Lemma bool_default_None_witness :
  unset_or_empty {["DEBUG_TRACEBACK" := ""]} "DEBUG_TRACEBACK"
  ∧ ∃ cause,
      @_get_bool_env_variable cpython {["DEBUG_TRACEBACK" := ""]}
        "DEBUG_TRACEBACK" None
      = Err (RaiseFrom ValueError
               "Environment variable DEBUG_TRACEBACK=None cannot be cast to bool due to ValueError."
               cause).
Proof.
  assert (unset_or_empty {["DEBUG_TRACEBACK" := ""]} "DEBUG_TRACEBACK") as Hu
    by (right; reflexivity).
  split; [exact Hu|].
  destruct (@bool_default_None cpython _ _ Hu) as (_ & cause & _ & _ & E).
  exists cause. exact E.
Defined.

Lemma cast_str_to_bool_spec_witness :
  @cast_str_to_bool cpython "TRUE" = Ok true
  ∧ @cast_str_to_bool cpython "False" = Ok false
  ∧ ∃ e, @cast_str_to_bool cpython "yes" = Err e ∧ exn_cls e = ValueError.
Proof.
  destruct (@cast_str_to_bool_spec cpython "TRUE") as (_ & _ & _ & Ht & _ & _).
  destruct (@cast_str_to_bool_spec cpython "False") as (_ & _ & _ & _ & Hf & _).
  destruct (@cast_str_to_bool_spec cpython "yes") as (_ & _ & _ & _ & _ & He).
  split_and!.
  - apply Ht. repeat constructor.
  - apply Hf. repeat constructor.
  - apply He. repeat constructor.
Defined.

Lemma geoserver_internal_fallback_witness :
  @EnvVariable_body cpython example_environ = Ok example_config
  ∧ GEOSERVER_INTERNAL_HOST example_config = Some "http://geoserver"
  ∧ GEOSERVER_INTERNAL_PORT example_config = GEOSERVER_PORT example_config
  ∧ GEOSERVER_PORT example_config = Some "8088"
  ∧ ∃ cfg, @EnvVariable_body cpython (delete "GEOSERVER_HOST" example_environ)
           = Ok cfg
           ∧ GEOSERVER_HOST cfg = Some "http://localhost".
Proof.
  pose proof (@EnvVariable_body_example cpython) as Hb.
  destruct (@geoserver_internal_fallback cpython _ _ Hb) as (Hh & Hp & _ & Hd).
  split_and!.
  - exact Hb.
  - apply Hh. left. reflexivity.
  - apply Hp. left. reflexivity.
  - apply Hd. left. reflexivity.
  - assert ({cfg | @EnvVariable_body cpython
                       (delete "GEOSERVER_HOST" example_environ) = Ok cfg})
      as [cfg Hb'] by (eexists; vm_compute; reflexivity).
    exists cfg. split; [exact Hb'|].
    apply (@geoserver_internal_fallback cpython _ _ Hb'). left. reflexivity.
Defined.

Lemma bool_resolution_witness :
  @_get_bool_env_variable cpython {["DEBUG_TRACEBACK" := "1"]}
    "DEBUG_TRACEBACK" (Some false) = Ok true
  ∧ ∃ cause,
      @_get_bool_env_variable cpython {["DEBUG_TRACEBACK" := "maybe"]}
        "DEBUG_TRACEBACK" (Some false)
      = Err (RaiseFrom ValueError
               "Environment variable DEBUG_TRACEBACK=maybe cannot be cast to bool due to ValueError."
               cause).
Proof.
  split.
  - destruct (@bool_resolution cpython {["DEBUG_TRACEBACK" := "1"]}
                "DEBUG_TRACEBACK" (Some false))
      as (raw & Eraw & _ & Hok & _).
    injection Eraw as <-. apply Hok. reflexivity.
  - destruct (@bool_resolution cpython {["DEBUG_TRACEBACK" := "maybe"]}
                "DEBUG_TRACEBACK" (Some false))
      as (raw & Eraw & _ & _ & Herr & _).
    injection Eraw as <-. eexists. apply Herr. reflexivity.
Defined.

Lemma example_constants_witness :
  _get_env_variable example_environ "POSTGRES_PORT" (Some "5431") false
  = Ok (Some "5431")
  ∧ @_get_bool_env_variable cpython example_environ "DEBUG_TRACEBACK" (Some false)
    = Ok true
  ∧ @_get_bool_env_variable cpython ∅ "DEBUG_TRACEBACK" (Some false) = Ok false
  ∧ @EnvVariable_body cpython example_environ = Ok example_config
  ∧ POSTGRES_PORT example_config = Some "5431"
  ∧ DEBUG_TRACEBACK example_config = true
  ∧ ∃ cfg, @EnvVariable_body cpython (delete "DEBUG_TRACEBACK" example_environ)
           = Ok cfg
           ∧ DEBUG_TRACEBACK cfg = false.
Proof.
  pose proof (@EnvVariable_body_example cpython) as Hb.
  destruct (@example_constants cpython example_environ) as (Hp & Ht & _ & Hcfg).
  destruct (Hcfg _ Hb) as (Hp' & Ht' & _).
  split_and!.
  - apply Hp. reflexivity.
  - apply Ht. reflexivity.
  - apply (@example_constants cpython ∅). reflexivity.
  - exact Hb.
  - apply Hp'. reflexivity.
  - apply Ht'. reflexivity.
  - assert ({cfg | @EnvVariable_body cpython
                       (delete "DEBUG_TRACEBACK" example_environ) = Ok cfg})
      as [cfg Hb'] by (eexists; vm_compute; reflexivity).
    exists cfg. split; [exact Hb'|].
    destruct (@example_constants cpython
                (delete "DEBUG_TRACEBACK" example_environ)) as (_ & _ & _ & Hcfg').
    apply (Hcfg' _ Hb'). reflexivity.
Defined.

Lemma path_typed_constants_witness :
  (_get_env_variable ∅ "DATA_DIR" None false ≫= @pathlib_Path cpython)
  = Err (Raise KeyError
           "Environment variable DATA_DIR not set, and allow_empty is False")
  ∧ (∃ e, @EnvVariable_body cpython (delete "DATA_DIR" example_environ) = Err e)
  ∧ (_get_env_variable example_environ "DATA_DIR" None false
     ≫= @pathlib_Path cpython) = Ok (PurePath "/stored_data")
  ∧ ∃ s, example_environ !! "DATA_DIR" = Some s
         ∧ path_attribute example_config "DATA_DIR" = Some (PurePath s).
Proof.
  assert ("DATA_DIR" ∈ path_constants) as Hin by repeat constructor.
  destruct (@path_typed_constants cpython ∅ "DATA_DIR" Hin) as (Hunset & _ & _).
  destruct (@path_typed_constants cpython (delete "DATA_DIR" example_environ)
              "DATA_DIR" Hin) as (Hbody & _ & _).
  destruct (@path_typed_constants cpython example_environ "DATA_DIR" Hin)
    as (_ & Hset & Hattr).
  split_and!.
  - apply Hunset. left. reflexivity.
  - apply Hbody. left. reflexivity.
  - apply (Hset "/stored_data"); [reflexivity|discriminate].
  - destruct (Hattr _ (@EnvVariable_body_example cpython)) as (s & Hs & _ & Ha).
    exists s. split; [exact Hs|exact Ha].
Defined.

Lemma allow_empty_absent_is_None_witness :
  example_environ !! "LAND_FILE" = None
  ∧ _get_env_variable example_environ "LAND_FILE" None true = Ok None
  ∧ _LAND_FILE example_config = None.
Proof.
  assert (example_environ !! "LAND_FILE" = None) as Hn by reflexivity.
  destruct (@allow_empty_absent_is_None cpython example_environ "LAND_FILE" Hn)
    as (E & Hland).
  split_and!; [exact Hn|exact E|].
  apply (Hland eq_refl _ (@EnvVariable_body_example cpython)).
Defined.



(** * Further properties of the resolution functions *)

Section Resolution.

Context `{!Interpreter}.

(** X1.  Without [allow_empty], [_get_env_variable] succeeds exactly with a
    non-empty string: the value of the variable when that is non-empty,
    otherwise the default when that is non-empty.  It never hands out [None]
    or the empty string. *)
Theorem required_result_nonempty (environ : gmap string string) var_name
    default r :
  _get_env_variable environ var_name default false = Ok r
  ↔ ∃ s, r = Some s ∧ s ≠ ""
         ∧ (environ !! var_name = Some s
            ∨ unset_or_empty environ var_name ∧ default = Some s).
Proof.
  split; [apply _get_env_variable_Ok_nonempty|].
  intros (s & -> & Hne & [Hs|[Hu ->]]).
  - by apply _get_env_variable_value.
  - rewrite (_get_env_variable_default _ _ _ _ Hu).
    by rewrite (bool_decide_false _ Hne).
Qed.

(** X2.  [_get_env_variable] raises exactly when the variable is absent or
    empty, the default is [None] or the empty string, and [allow_empty] is
    false; what it raises is then the [KeyError] whose message contains the
    name of the variable, and nothing else is ever raised. *)
Theorem KeyError_exactly_when (environ : gmap string string) var_name
    default allow_empty :
  ((∃ e, _get_env_variable environ var_name default allow_empty = Err e)
   ↔ unset_or_empty environ var_name
     ∧ (default = None ∨ default = Some "")
     ∧ allow_empty = false)
  ∧ (∀ e, _get_env_variable environ var_name default allow_empty = Err e →
       exn_cls e = KeyError ∧ mentions (exn_msg e) var_name).
Proof.
  split.
  - split.
    + intros (e & He). apply _get_env_variable_KeyError in He. tauto.
    + intros (Hu & Hd & Ha). eexists.
      apply _get_env_variable_KeyError. by split_and!.
  - intros e He. apply _get_env_variable_KeyError in He as (-> & _).
    split; [done|]. apply mentions_middle.
Qed.

(** X3.  With [allow_empty] true, [_get_env_variable] never raises.  Its
    result is [None] only when the variable is absent and no default is
    given; an empty value with no default stays the empty string (it is not
    replaced by [None]); an absent or empty value with a default gives the
    default, even an empty one. *)
Theorem allow_empty_never_raises (environ : gmap string string) var_name
    default :
  ∃ r, _get_env_variable environ var_name default true = Ok r
       ∧ (r = None ↔ environ !! var_name = None ∧ default = None)
       ∧ (environ !! var_name = Some "" → default = None → r = Some "")
       ∧ (∀ d, unset_or_empty environ var_name → default = Some d →
            r = Some d)
       ∧ (∀ s, environ !! var_name = Some s → s ≠ "" → r = Some s).
Proof.
  destruct (unset_or_empty_dec environ var_name) as [Hu|(s & Hs & Hne)].
  - destruct default as [d|].
    + exists (Some d). rewrite (_get_env_variable_default _ _ _ _ Hu).
      split_and!; [done| |done| |].
      * split; [done|]. by intros [_ ?].
      * by intros d' _ [= ->].
      * intros s Hs Hne. destruct Hu as [Hu|Hu]; congruence.
    + exists (environ !! var_name).
      rewrite (_get_env_variable_no_default _ _ _ Hu).
      split_and!; [done| |done|done|].
      * split; [done|]. by intros [? _].
      * intros s Hs Hne. destruct Hu as [Hu|Hu]; congruence.
  - exists (Some s). rewrite (_get_env_variable_value _ _ _ _ _ Hs Hne).
    split_and!; [done| | | |].
    + split; [done|]. intros [? _]. congruence.
    + intros Hs'. congruence.
    + intros d [Hu|Hu]; congruence.
    + intros s' Hs' _. congruence.
Qed.

(** X4.  Setting a variable to the empty string has the effect of not
    setting it at all, whenever [allow_empty] is false or a default is
    given. *)
Theorem empty_like_absent (environ : gmap string string) var_name
    default allow_empty :
  allow_empty = false ∨ default ≠ None →
  _get_env_variable (<[var_name := ""]> environ) var_name default allow_empty
  = _get_env_variable (delete var_name environ) var_name default allow_empty.
Proof.
  intros Hcase.
  assert (unset_or_empty (<[var_name := ""]> environ) var_name) as Hi
    by (right; apply lookup_insert_eq).
  assert (unset_or_empty (delete var_name environ) var_name) as Hd
    by (left; apply lookup_delete_eq).
  destruct default as [d|].
  - by rewrite !_get_env_variable_default.
  - destruct Hcase as [->|Hne]; [|done].
    by rewrite !_get_env_variable_no_default.
Qed.

(** The text of a boolean default is accepted as that boolean. *)
Lemma cast_str_to_bool_py_str (b : bool) :
  cast_str_to_bool (py_str (Some b)) = Ok b.
Proof. by destruct b. Qed.

Lemma _get_bool_env_variable_unset (environ : gmap string string) var_name
    (b : bool) :
  unset_or_empty environ var_name →
  _get_bool_env_variable environ var_name (Some b) = Ok b.
Proof.
  intros Hu. unfold _get_bool_env_variable.
  rewrite (_get_env_variable_default _ _ _ _ Hu).
  rewrite (bool_decide_false _ (py_str_nonempty (Some b))).
  by destruct b.
Qed.

(** The two successful exits of [cast_str_to_bool]. *)
Lemma cast_str_to_bool_Ok (s : string) (b : bool) :
  cast_str_to_bool s = Ok b
  ↔ lower s ∈ (if b then truth_values else false_values).
Proof.
  pose proof (truth_false_disjoint (lower s)) as Hdisj.
  destruct (cast_str_to_bool_cases s) as [[Ht E]|[[Hf E]|(Hnt & Hnf & E)]];
    rewrite E; destruct b; split; intros Hx;
    try done; try discriminate Hx; exfalso; auto.
Qed.

(** X5.  A flag whose variable is absent or empty resolves to its default:
    the text of a boolean default coerces back to that boolean. *)
Theorem bool_default_round_trip (environ : gmap string string) var_name
    (b : bool) :
  unset_or_empty environ var_name →
  cast_str_to_bool (py_str (Some b)) = Ok b
  ∧ _get_bool_env_variable environ var_name (Some b) = Ok b.
Proof.
  intros Hu. split.
  - apply cast_str_to_bool_py_str.
  - by apply _get_bool_env_variable_unset.
Qed.

(** ** Flags *)

(** The boolean resolution of a variable with a non-empty value is the
    coercion of that value, a failure wrapped in the outer [ValueError]. *)
Lemma _get_bool_env_variable_value (environ : gmap string string) var_name s
    default :
  environ !! var_name = Some s → s ≠ "" →
  _get_bool_env_variable environ var_name default
  = try_except_ValueError (cast_str_to_bool s)
      (λ e, Err (RaiseFrom ValueError
                   ("Environment variable " +:+ var_name +:+ "=" +:+ s
                    +:+ " cannot be cast to bool due to ValueError.") e)).
Proof.
  intros Hs Hne. unfold _get_bool_env_variable.
  by rewrite (_get_env_variable_value _ _ _ _ _ Hs Hne).
Qed.

Lemma lower_nonempty (s : string) : lower s = "" ↔ s = "".
Proof. by destruct s. Qed.

Lemma literal_nonempty (s : string) :
  lower s ∈ truth_values ∨ lower s ∈ false_values → s ≠ "".
Proof.
  rewrite truth_values_spec, false_values_spec. intros Hin ->.
  simpl in Hin. destruct Hin as [[E|[E|E]]|[E|[E|E]]]; discriminate E.
Qed.

(** X6.  A flag with default [d] resolves to [b] exactly when its variable is
    absent or empty and [b] is [d], or its variable is set to a spelling of
    a literal for [b].  It fails exactly when the variable is set to a
    non-empty string that is no spelling of any of the six literals. *)
Theorem flag_value (environ : gmap string string) var_name (d : bool) :
  (∀ b, _get_bool_env_variable environ var_name (Some d) = Ok b
        ↔ unset_or_empty environ var_name ∧ b = d
          ∨ ∃ s, environ !! var_name = Some s
                 ∧ lower s ∈ (if b then truth_values else false_values))
  ∧ ((∃ e, _get_bool_env_variable environ var_name (Some d) = Err e)
     ↔ ∃ s, environ !! var_name = Some s ∧ s ≠ ""
            ∧ (lower s ∉ truth_values) ∧ (lower s ∉ false_values)).
Proof.
  destruct (unset_or_empty_dec environ var_name) as [Hu|(s & Hs & Hne)].
  - rewrite (_get_bool_env_variable_unset environ var_name d Hu). split.
    + intros b. split.
      * intros [= <-]. by left.
      * intros [[_ ->]|(s & Hs & Hin)]; [done|].
        assert (s ≠ "") as Hne by (apply literal_nonempty; destruct b; auto).
        destruct Hu as [Hu|Hu]; congruence.
    + split; [by intros (e & He)|].
      intros (s & Hs & Hne & _). destruct Hu as [Hu|Hu]; congruence.
  - rewrite (_get_bool_env_variable_value _ _ _ _ Hs Hne).
    assert (¬ unset_or_empty environ var_name) as Hset
      by (intros [Hu|Hu]; congruence).
    pose proof (truth_false_disjoint (lower s)) as Hdisj.
    destruct (cast_str_to_bool_cases s) as [[Ht E]|[[Hf E]|(Hnt & Hnf & E)]];
      rewrite E; simpl.
    + split.
      * intros b. split.
        -- intros [= <-]. right. eauto.
        -- intros [[Hu _]|(s' & Hs' & Hin)]; [done|].
           assert (s' = s) as -> by congruence.
           destruct b; [done|]. destruct (Hdisj Ht Hin).
      * split; [by intros (e & He)|].
        intros (s' & Hs' & _ & Hn & _).
        assert (s' = s) as -> by congruence. done.
    + split.
      * intros b. split.
        -- intros [= <-]. right. eauto.
        -- intros [[Hu _]|(s' & Hs' & Hin)]; [done|].
           assert (s' = s) as -> by congruence.
           destruct b; [|done]. destruct (Hdisj Hin Hf).
      * split; [by intros (e & He)|].
        intros (s' & Hs' & _ & _ & Hn).
        assert (s' = s) as -> by congruence. done.
    + split.
      * intros b. split; [done|].
        intros [[Hu _]|(s' & Hs' & Hin)]; [done|].
        assert (s' = s) as -> by congruence. by destruct b.
      * split; [|eauto]. intros _. exists s. by split_and!.
Qed.

(** X7.  Boolean resolution does not tell spellings apart: two non-empty
    values with the same lowercase give the same boolean, or both fail. *)
Theorem flag_case_insensitive (environ : gmap string string) var_name default
    (s s' : string) :
  lower s = lower s' → s ≠ "" →
  (∀ b, _get_bool_env_variable (<[var_name := s]> environ) var_name default
        = Ok b
        ↔ _get_bool_env_variable (<[var_name := s']> environ) var_name default
          = Ok b)
  ∧ ((∃ e, _get_bool_env_variable (<[var_name := s]> environ) var_name default
           = Err e)
     ↔ (∃ e, _get_bool_env_variable (<[var_name := s']> environ) var_name
               default = Err e)).
Proof.
  intros Hlow Hne.
  assert (s' ≠ "") as Hne'.
  { intros ->. apply Hne. by apply lower_nonempty. }
  rewrite (_get_bool_env_variable_value _ _ s) by (by rewrite ?lookup_insert_eq).
  rewrite (_get_bool_env_variable_value _ _ s')
    by (by rewrite ?lookup_insert_eq).
  destruct (cast_str_to_bool_cases s) as [[Ht E]|[[Hf E]|(Hnt & Hnf & E)]];
    destruct (cast_str_to_bool_cases s')
      as [[Ht' E']|[[Hf' E']|(Hnt' & Hnf' & E')]];
    rewrite E, E'; simpl; rewrite Hlow in *;
    try (by destruct (truth_false_disjoint (lower s')));
    try done.
  all: split; [intros b; split; intros [=] | split; intros (e & [=])]; eauto.
Qed.

(** ** The spellings a literal is accepted in *)

Lemma lower_upper_ascii (c : ascii) :
  lower_ascii c = c → lower_ascii (upper_ascii c) = c.
Proof. destruct c as [[] [] [] [] [] [] [] []]; intros E; done || discriminate E. Qed.

Lemma upper_lower_ascii (x : ascii) :
  lower_ascii x = x ∨ (lower_ascii x ≠ x ∧ upper_ascii (lower_ascii x) = x).
Proof.
  destruct x as [[] [] [] [] [] [] [] []];
    (by left) || (right; split; [discriminate|reflexivity]).
Qed.

(** A string has a given lowercase text as its lowercase exactly when it is
    one of the spellings of that text. *)
Lemma lower_spellings (lit : string) :
  lower lit = lit → ∀ s, lower s = lit ↔ s ∈ spellings lit.
Proof.
  induction lit as [|c rest IH]; intros Hlit s.
  - simpl. rewrite list_elem_of_singleton. apply lower_nonempty.
  - simpl in Hlit. injection Hlit as Hc Hrest. specialize (IH Hrest).
    simpl. rewrite elem_of_app, list_elem_of_fmap. split.
    + destruct s as [|x t]; [discriminate|]. simpl. intros [= Hx Ht].
      apply IH in Ht.
      destruct (upper_lower_ascii x) as [Hsame|[Hdiff Hup]].
      * left. exists t. split; [|done]. congruence.
      * right. rewrite Hx in Hup, Hdiff.
        rewrite bool_decide_false by congruence.
        apply list_elem_of_fmap. exists t. split; [|done]. congruence.
    + intros [(t & -> & Ht)|Hright].
      * simpl. apply IH in Ht. congruence.
      * case_bool_decide; [by apply elem_of_nil in Hright|].
        apply list_elem_of_fmap in Hright as (t & -> & Ht).
        simpl. apply IH in Ht. by rewrite (lower_upper_ascii _ Hc), Ht.
Qed.

(** X8.  [cast_str_to_bool] returns [True] exactly on the sixteen spellings
    of "true" and on "t", "T" and "1", and [False] exactly on the thirty-two
    spellings of "false" and on "f", "F" and "0". *)
Theorem accepted_spellings (s : string) :
  (cast_str_to_bool s = Ok true
   ↔ s ∈ ["true"; "truE"; "trUe"; "trUE"; "tRue"; "tRuE"; "tRUe"; "tRUE";
          "True"; "TruE"; "TrUe"; "TrUE"; "TRue"; "TRuE"; "TRUe"; "TRUE";
          "t"; "T"; "1"])
  ∧ (cast_str_to_bool s = Ok false
     ↔ s ∈ (spellings "false" ++ ["f"; "F"; "0"])%list)
  ∧ List.length (spellings "false") = 32%nat.
Proof.
  rewrite (cast_str_to_bool_Ok s true), (cast_str_to_bool_Ok s false).
  rewrite truth_values_spec, false_values_spec.
  rewrite (lower_spellings "true" eq_refl), (lower_spellings "t" eq_refl),
    (lower_spellings "1" eq_refl), (lower_spellings "false" eq_refl),
    (lower_spellings "f" eq_refl), (lower_spellings "0" eq_refl).
  split_and!; [| |reflexivity].
  - change ["true"; "truE"; "trUe"; "trUE"; "tRue"; "tRuE"; "tRUe"; "tRUE";
            "True"; "TruE"; "TrUe"; "TrUE"; "TRue"; "TRuE"; "TRUe"; "TRUE";
            "t"; "T"; "1"]
      with (spellings "true" ++ spellings "t" ++ spellings "1")%list.
    rewrite !elem_of_app. tauto.
  - change ["f"; "F"; "0"] with (spellings "f" ++ spellings "0")%list.
    rewrite !elem_of_app. tauto.
Qed.

End Resolution.

(** * Further properties of the class body *)

Section ClassBody.

Context `{!Interpreter}.

Ltac class_body_steps Hb :=
  apply EnvVariable_body_Ok in Hb; destruct_and!.

(** ** Single assignments *)

Lemma required_step (environ : gmap string string) var_name r :
  _get_env_variable environ var_name None false = Ok r →
  r = environ !! var_name ∧ ∃ s, r = Some s ∧ s ≠ "".
Proof.
  intros E. apply _get_env_variable_Ok_nonempty in E
    as (s & -> & Hne & [Hs|[_ Hd]]); [|discriminate Hd].
  split; [done|]. eauto.
Qed.

Lemma required_step_Ok (environ : gmap string string) var_name s :
  environ !! var_name = Some s → s ≠ "" →
  _get_env_variable environ var_name None false = Ok (Some s).
Proof. apply _get_env_variable_value. Qed.

Lemma defaulted_step (environ : gmap string string) var_name d r :
  _get_env_variable environ var_name (Some d) false = Ok r →
  (unset_or_empty environ var_name → r = Some d)
  ∧ (∀ s, environ !! var_name = Some s → s ≠ "" → r = Some s).
Proof.
  intros E. split.
  - intros Hu. by destruct (_get_env_variable_default_Ok _ _ _ _ Hu E).
  - intros s Hs Hne. rewrite (_get_env_variable_value _ _ _ _ _ Hs Hne) in E.
    by injection E.
Qed.

Lemma defaulted_step_Ok (environ : gmap string string) var_name d :
  d ≠ "" →
  ∃ s, _get_env_variable environ var_name (Some d) false = Ok (Some s)
       ∧ s ≠ "".
Proof.
  intros Hd.
  destruct (unset_or_empty_dec environ var_name) as [Hu|(s & Hs & Hne)].
  - exists d. rewrite (_get_env_variable_default _ _ _ _ Hu).
    by rewrite (bool_decide_false _ Hd).
  - exists s. by rewrite (_get_env_variable_value _ _ _ _ _ Hs Hne).
Qed.

Lemma allow_empty_step (environ : gmap string string) var_name :
  _get_env_variable environ var_name None true = Ok (environ !! var_name).
Proof.
  unfold _get_env_variable, os_getenv.
  by rewrite bool_decide_false by (intros Hne; by apply Hne).
Qed.

Lemma path_step (environ : gmap string string) var_name p :
  match _get_env_variable environ var_name None false with
  | Ok a => pathlib_Path a
  | Err e => Err e
  end = Ok p →
  ∃ s, environ !! var_name = Some s ∧ s ≠ "" ∧ p = PurePath s.
Proof.
  destruct (_get_env_variable environ var_name None false) as [r|e] eqn:E;
    [|discriminate].
  apply required_step in E as (-> & s & Hs & Hne).
  rewrite Hs. simpl. intros [= <-]. eauto.
Qed.

Lemma flag_step (environ : gmap string string) var_name (d b : bool) :
  _get_bool_env_variable environ var_name (Some d) = Ok b →
  flag_ok environ var_name.
Proof.
  destruct (unset_or_empty_dec environ var_name) as [Hu|(s & Hs & Hne)];
    [by left|].
  rewrite (_get_bool_env_variable_value _ _ _ _ Hs Hne).
  destruct (cast_str_to_bool_cases s) as [[Ht E]|[[Hf E]|(_ & _ & E)]];
    rewrite E; simpl; [| |discriminate]; intros _; right; eauto.
Qed.

Lemma flag_step_Ok (environ : gmap string string) var_name (d : bool) :
  flag_ok environ var_name →
  ∃ b, _get_bool_env_variable environ var_name (Some d) = Ok b.
Proof.
  intros [Hu|(s & Hs & Hin)].
  - exists d. by apply _get_bool_env_variable_unset.
  - rewrite (_get_bool_env_variable_value _ _ _ _ Hs (literal_nonempty _ Hin)).
    destruct Hin as [Hin|Hin].
    + exists true. by rewrite (proj2 (cast_str_to_bool_Ok s true) Hin).
    + exists false. by rewrite (proj2 (cast_str_to_bool_Ok s false) Hin).
Qed.

Lemma flag_step_Err (environ : gmap string string) var_name (d : bool) e :
  _get_bool_env_variable environ var_name (Some d) = Err e →
  ∃ s, environ !! var_name = Some s ∧ s ≠ ""
       ∧ (lower s ∉ truth_values) ∧ (lower s ∉ false_values)
       ∧ exn_cls e = ValueError
       ∧ mentions (exn_msg e) var_name ∧ mentions (exn_msg e) s.
Proof.
  destruct (unset_or_empty_dec environ var_name) as [Hu|(s & Hs & Hne)].
  - by rewrite (_get_bool_env_variable_unset _ _ _ Hu).
  - rewrite (_get_bool_env_variable_value _ _ _ _ Hs Hne).
    destruct (cast_str_to_bool_cases s) as [[_ E]|[[_ E]|(Hnt & Hnf & E)]];
      rewrite E; simpl; [discriminate..|].
    intros [= <-]. exists s. split_and!; [done..| |];
      apply bool_message_mentions.
Qed.

(** ** The attributes of a class body that succeeds *)

(** X10.  In a class body that succeeds, each attribute assigned from a
    required variable is the value the environment holds under that name, a
    non-empty string; [_LAND_FILE] is whatever the environment holds under
    LAND_FILE, be it nothing or the empty string. *)
Theorem required_attributes_from_environ (environ : gmap string string) cfg :
  EnvVariable_body environ = Ok cfg →
  (∀ n a, (n, a) ∈ required_attributes cfg →
     a = environ !! n ∧ ∃ s, a = Some s ∧ s ≠ "")
  ∧ _LAND_FILE cfg = environ !! "LAND_FILE".
Proof.
  intros Hb. class_body_steps Hb. split.
  - intros n a. unfold required_attributes.
    rewrite !elem_of_cons, elem_of_nil.
    intros Hin; repeat destruct Hin as [[= -> ->]|Hin]; [..|done];
      by apply required_step.
  - match goal with
    | E : _get_env_variable _ "LAND_FILE" _ _ = Ok _ |- _ =>
        rewrite allow_empty_step in E; by injection E
    end.
Qed.

(** X11.  In a class body that succeeds, each attribute with a literal
    default is that default when its variable is absent or empty, and the
    value of its variable otherwise. *)
Theorem defaulted_attributes_spec (environ : gmap string string) cfg :
  EnvVariable_body environ = Ok cfg →
  ∀ n d a, (n, d, a) ∈ defaulted_attributes cfg →
    (unset_or_empty environ n → a = Some d)
    ∧ (∀ s, environ !! n = Some s → s ≠ "" → a = Some s).
Proof.
  intros Hb. class_body_steps Hb. intros n d a. unfold defaulted_attributes.
  rewrite !elem_of_cons, elem_of_nil.
  intros Hin; repeat destruct Hin as [[= -> -> ->]|Hin]; [..|done];
    by apply defaulted_step.
Qed.

(** X12.  In a class body that succeeds, every string attribute except
    [_LAND_FILE] is a non-empty string: none of them is [None] or empty. *)
Theorem checked_attributes_nonempty (environ : gmap string string) cfg :
  EnvVariable_body environ = Ok cfg →
  Forall (λ a, ∃ s, a = Some s ∧ s ≠ "") (checked_attributes cfg).
Proof.
  intros Hb. class_body_steps Hb. unfold checked_attributes.
  repeat constructor;
    match goal with
    | E : _get_env_variable _ _ _ false = Ok ?a |- ∃ s, ?a = Some s ∧ _ =>
        apply _get_env_variable_Ok_nonempty in E as (s & ? & ? & _); eauto
    end.
Qed.

(** ** When the class body succeeds, and how it fails *)

(** X9.  The class body succeeds exactly when each of the twelve required
    variables has a non-empty value and each of the two flags is absent,
    empty or a spelling of a boolean literal.  No other variable can make it
    fail. *)
Theorem class_body_succeeds_iff (environ : gmap string string) :
  (∃ cfg, EnvVariable_body environ = Ok cfg)
  ↔ (∀ n, n ∈ required_variables → ∃ s, environ !! n = Some s ∧ s ≠ "")
    ∧ (∀ n, n ∈ flag_variables → flag_ok environ n).
Proof.
  split.
  - intros (cfg & Hb).
    unfold EnvVariable_body, mbind, result_bind, mret, result_ret in Hb.
    result_inv Hb. clear Hb. split.
    + intros n. unfold required_variables.
      rewrite !elem_of_cons, elem_of_nil.
      intros Hin; repeat destruct Hin as [->|Hin]; [..|done];
        match goal with
        | E : _get_env_variable _ ?n None false = Ok _
          |- ∃ s, _ !! ?n = Some s ∧ _ =>
            apply required_step in E as (-> & s & ? & ?); eauto
        | E : match _get_env_variable _ ?n None false with _ => _ end = Ok _
          |- ∃ s, _ !! ?n = Some s ∧ _ =>
            apply path_step in E as (s & ? & ? & _); eauto
        end.
    + intros n. unfold flag_variables. rewrite !elem_of_cons, elem_of_nil.
      intros Hin; repeat destruct Hin as [->|Hin]; [..|done];
        eapply flag_step; eassumption.
  - intros [Hreq Hflag].
    assert (∀ n, n ∈ required_variables →
              ∃ s, _get_env_variable environ n None false = Ok (Some s))
      as Hreq'.
    { intros n Hin. destruct (Hreq n Hin) as (s & Hs & Hne).
      exists s. by apply required_step_Ok. }
    unfold EnvVariable_body, mbind, result_bind, mret, result_ret.
    repeat
      match goal with
      | |- ∃ cfg, match _get_env_variable environ ?n None false with
                  | Ok _ => _ | Err _ => _ end = _ =>
          let s := fresh "s" in let E := fresh "E" in
          destruct (Hreq' n) as (s & E);
          [unfold required_variables; repeat constructor|rewrite E]
      | |- ∃ cfg, match
                    match _get_env_variable environ ?n None false with
                    | Ok _ => _ | Err _ => _ end
                  with Ok _ => _ | Err _ => _ end = _ =>
          let s := fresh "s" in let E := fresh "E" in
          destruct (Hreq' n) as (s & E);
          [unfold required_variables; repeat constructor|rewrite E; simpl]
      | |- ∃ cfg, match _get_bool_env_variable environ ?n (Some ?d) with
                  | Ok _ => _ | Err _ => _ end = _ =>
          let b := fresh "b" in let E := fresh "E" in
          destruct (flag_step_Ok environ n d) as (b & E);
          [apply Hflag; unfold flag_variables; repeat constructor|rewrite E]
      | |- ∃ cfg, match _get_env_variable environ ?n (Some ?d) false with
                  | Ok _ => _ | Err _ => _ end = _ =>
          let s := fresh "s" in let E := fresh "E" in
          let Hne := fresh "Hne" in
          destruct (defaulted_step_Ok environ n d) as (s & E & Hne);
          [done|rewrite E]
      | |- ∃ cfg, match _get_env_variable environ ?n None true with
                  | Ok _ => _ | Err _ => _ end = _ =>
          rewrite (allow_empty_step environ n)
      end.
    eauto.
Qed.

(** X13.  Whatever error ends the class body points at a variable that is
    really at fault: either the [KeyError] naming a required variable that is
    absent or empty, or a [ValueError] naming a flag and its value, a
    non-empty string that is no spelling of a boolean literal.  The class
    body never ends with a [TypeError] or an [AttributeError]. *)
Theorem class_body_error_sound (environ : gmap string string) e :
  EnvVariable_body environ = Err e →
  ((∃ n, n ∈ required_variables ∧ unset_or_empty environ n
         ∧ e = Raise KeyError
                 ("Environment variable " +:+ n
                  +:+ " not set, and allow_empty is False"))
   ∨ (∃ n s, n ∈ flag_variables ∧ environ !! n = Some s ∧ s ≠ ""
             ∧ (lower s ∉ truth_values) ∧ (lower s ∉ false_values)
             ∧ exn_cls e = ValueError
             ∧ mentions (exn_msg e) n ∧ mentions (exn_msg e) s))
  ∧ (exn_cls e = KeyError ∨ exn_cls e = ValueError).
Proof.
  intros Hb.
  assert ((∃ n, n ∈ required_variables ∧ unset_or_empty environ n
                ∧ e = Raise KeyError
                        ("Environment variable " +:+ n
                         +:+ " not set, and allow_empty is False"))
          ∨ (∃ n s, n ∈ flag_variables ∧ environ !! n = Some s ∧ s ≠ ""
                    ∧ (lower s ∉ truth_values) ∧ (lower s ∉ false_values)
                    ∧ exn_cls e = ValueError
                    ∧ mentions (exn_msg e) n ∧ mentions (exn_msg e) s))
    as Hsound.
  { unfold EnvVariable_body, mbind, result_bind, mret, result_ret in Hb.
    repeat
      match type of Hb with
      | match ?m with Ok _ => _ | Err _ => _ end = Err _ =>
          let E := fresh "E" in
          destruct m eqn:E;
          [|injection Hb as <-;
            lazymatch type of E with
            | _get_bool_env_variable _ ?n _ = Err _ =>
                apply flag_step_Err in E as (s & ? & ? & ? & ? & ? & ? & ?);
                right; exists n, s; split_and!;
                [unfold flag_variables; repeat constructor|done..]
            | _get_env_variable _ ?n _ _ = Err _ =>
                apply _get_env_variable_KeyError in E as (-> & Hu & Hd & Ha);
                first
                  [ discriminate Ha
                  | by destruct Hd as [Hd|Hd]
                  | match goal with
                    | E' : _get_env_variable _ _ _ false = Ok ?a,
                      Hd : ?a = None ∨ ?a = Some "" |- _ =>
                        apply _get_env_variable_Ok_nonempty in E'
                          as (? & -> & ? & _);
                        destruct Hd as [Hd|Hd]; congruence
                    end
                  | left; exists n; split_and!;
                    [unfold required_variables; repeat constructor|done..] ]
            | match _get_env_variable _ ?n None false with _ => _ end = Err _ =>
                let E' := fresh "E" in
                destruct (_get_env_variable environ n None false) eqn:E';
                [apply required_step in E' as (_ & ? & -> & _);
                 discriminate E
                |injection E as <-;
                 apply _get_env_variable_KeyError in E' as (-> & Hu & _);
                 left; exists n; split_and!;
                 [unfold required_variables; repeat constructor|done..]]
            end]
      end.
    discriminate Hb. }
  split; [done|].
  destruct Hsound as [(n & _ & _ & ->)|(n & s & _ & _ & _ & _ & _ & -> & _)];
    auto.
Qed.

(** ** What the class body reads *)

Lemma _get_bool_env_variable_ext (environ environ' : gmap string string)
    var_name default :
  environ !! var_name = environ' !! var_name →
  _get_bool_env_variable environ var_name default
  = _get_bool_env_variable environ' var_name default.
Proof.
  intros E. unfold _get_bool_env_variable.
  by rewrite (_get_env_variable_ext environ environ' _ _ _ E).
Qed.

(** X14.  The class body depends on the environment only through the
    twenty-six names it resolves: two environments that agree on those names
    give the same constants, or the same error. *)
Theorem class_body_reads_only (environ environ' : gmap string string) :
  (∀ n, n ∈ variables_read → environ !! n = environ' !! n) →
  EnvVariable_body environ = EnvVariable_body environ'.
Proof.
  intros Hagree.
  assert (∀ n d a, n ∈ variables_read →
            _get_env_variable environ n d a = _get_env_variable environ' n d a)
    as Hstr by (intros; by apply _get_env_variable_ext, Hagree).
  assert (∀ n d, n ∈ variables_read →
            _get_bool_env_variable environ n d
            = _get_bool_env_variable environ' n d)
    as Hbool by (intros; by apply _get_bool_env_variable_ext, Hagree).
  unfold EnvVariable_body, mbind, result_bind.
  repeat
    match goal with
    | |- match _get_env_variable environ ?n ?d ?a with
         | Ok _ => _ | Err _ => _ end = _ =>
        rewrite (Hstr n d a) by (unfold variables_read; repeat constructor);
        destruct (_get_env_variable environ' n d a); [|reflexivity]
    | |- match _get_bool_env_variable environ ?n ?d with
         | Ok _ => _ | Err _ => _ end = _ =>
        rewrite (Hbool n d) by (unfold variables_read; repeat constructor);
        destruct (_get_bool_env_variable environ' n d); [|reflexivity]
    | |- match
           match _get_env_variable environ ?n ?d ?a with
           | Ok _ => _ | Err _ => _ end
         with Ok _ => _ | Err _ => _ end = _ =>
        rewrite (Hstr n d a) by (unfold variables_read; repeat constructor);
        let x := fresh "x" in
        destruct (_get_env_variable environ' n d a) as [x|];
        [destruct (pathlib_Path x); [|reflexivity]|reflexivity]
    end.
  reflexivity.
Qed.

(** ** Which error comes first *)

(** X15.  When both flags are acceptable, the class body ends with the
    [KeyError] of the first required variable, in source order, that is
    absent or empty: the variables before it being set, it is the one the
    message names, whatever the state of the variables after it. *)
Theorem first_missing_variable_reported (environ : gmap string string)
    (before after : list string) (n : string) :
  required_variables = (before ++ n :: after)%list →
  (∀ m, m ∈ flag_variables → flag_ok environ m) →
  (∀ m, m ∈ before → ∃ s, environ !! m = Some s ∧ s ≠ "") →
  unset_or_empty environ n →
  EnvVariable_body environ
  = Err (Raise KeyError
           ("Environment variable " +:+ n
            +:+ " not set, and allow_empty is False")).
Proof.
  intros Hsplit Hflag Hbefore Hu.
  assert (∀ m, m ∈ before →
            ∃ s, _get_env_variable environ m None false = Ok (Some s))
    as Hbefore'.
  { intros m Hin. destruct (Hbefore m Hin) as (s & Hs & Hne).
    exists s. by apply required_step_Ok. }
  pose proof (_get_env_variable_no_default environ n false Hu) as Hn.
  simpl in Hn. clear Hbefore Hu.
  unfold required_variables in Hsplit.
  unfold EnvVariable_body, mbind, result_bind, mret, result_ret.
  repeat
    match goal with
    | Hs : _ :: _ = (?b ++ _ :: _)%list |- _ =>
        is_var b; destruct b as [|? b]; simpl in Hs;
        [injection Hs as <- _|injection Hs as <- Hs]
    | Hs : [] = (?b ++ _ :: _)%list |- _ => destruct b; discriminate Hs
    end;
    repeat
      match goal with
      | |- match _get_env_variable environ ?m None false with
           | Ok _ => _ | Err _ => _ end = _ =>
          first
            [ rewrite Hn; reflexivity
            | let s := fresh "s" in let E := fresh "E" in
              destruct (Hbefore' m) as (s & E);
              [solve [repeat constructor]|rewrite E] ]
      | |- match
             match _get_env_variable environ ?m None false with
             | Ok _ => _ | Err _ => _ end
           with Ok _ => _ | Err _ => _ end = _ =>
          first
            [ rewrite Hn; reflexivity
            | let s := fresh "s" in let E := fresh "E" in
              destruct (Hbefore' m) as (s & E);
              [solve [repeat constructor]|rewrite E; simpl] ]
      | |- match _get_bool_env_variable environ ?m (Some ?d) with
           | Ok _ => _ | Err _ => _ end = _ =>
          let b := fresh "b" in let E := fresh "E" in
          destruct (flag_step_Ok environ m d) as (b & E);
          [apply Hflag; unfold flag_variables; repeat constructor|rewrite E]
      | |- match _get_env_variable environ ?m (Some ?d) false with
           | Ok _ => _ | Err _ => _ end = _ =>
          let s := fresh "s" in let E := fresh "E" in
          let Hne := fresh "Hne" in
          destruct (defaulted_step_Ok environ m d) as (s & E & Hne);
          [done|rewrite E]
      end.
Qed.

End ClassBody.

(** ** Runs of the further properties on concrete inputs *)

Lemma required_result_nonempty_witness :
  _get_env_variable ∅ "POSTGRES_PORT" (Some "5431") false = Ok (Some "5431")
  ∧ ∃ s, example_environ !! "DATA_DIR" = Some s ∧ s ≠ "".
Proof.
  split.
  - apply (required_result_nonempty ∅ "POSTGRES_PORT").
    exists "5431". split_and!; [reflexivity|discriminate|].
    right. split; [left|]; reflexivity.
  - destruct (proj1 (required_result_nonempty example_environ
                       "DATA_DIR" None (Some "/stored_data")) eq_refl)
      as (s & _ & Hne & [Hs|[_ Hd]]); [|discriminate Hd].
    exists s. split; [exact Hs|exact Hne].
Defined.

Lemma KeyError_exactly_when_witness :
  (∃ e, _get_env_variable {["LIDAR_DIR" := ""]} "LIDAR_DIR" (Some "") false
        = Err e)
  ∧ ¬ unset_or_empty example_environ "LIDAR_DIR".
Proof.
  split.
  - apply KeyError_exactly_when. split_and!.
    + right. reflexivity.
    + right. reflexivity.
    + reflexivity.
  - intros Hu.
    assert (∃ e, _get_env_variable example_environ "LIDAR_DIR" None false
                 = Err e) as (e & He).
    { apply KeyError_exactly_when. split_and!;
        [exact Hu|left; reflexivity|reflexivity]. }
    vm_compute in He. discriminate He.
Defined.

Lemma allow_empty_never_raises_witness :
  _get_env_variable {["LAND_FILE" := ""]} "LAND_FILE" None true = Ok (Some "")
  ∧ _get_env_variable ∅ "LAND_FILE" None true = Ok None.
Proof.
  split.
  - destruct (allow_empty_never_raises {["LAND_FILE" := ""]}
                "LAND_FILE" None) as (r & E & _ & Hempty & _).
    rewrite E. f_equal. apply Hempty; reflexivity.
  - destruct (allow_empty_never_raises ∅ "LAND_FILE" None)
      as (r & E & HNone & _).
    rewrite E. f_equal. apply HNone. split; reflexivity.
Defined.

Lemma empty_like_absent_witness :
  (false = false ∨ Some "5431" ≠ None)
  ∧ _get_env_variable (<["POSTGRES_PORT" := ""]> example_environ)
      "POSTGRES_PORT" (Some "5431") false
    = _get_env_variable (delete "POSTGRES_PORT" example_environ)
        "POSTGRES_PORT" (Some "5431") false.
Proof.
  assert (false = false ∨ Some "5431" ≠ None) as Hcase by (left; reflexivity).
  split; [exact Hcase|].
  exact (empty_like_absent example_environ "POSTGRES_PORT"
           (Some "5431") false Hcase).
Defined.

Lemma bool_default_round_trip_witness :
  unset_or_empty ∅ "TEST_DATABASE_INTEGRATION"
  ∧ @_get_bool_env_variable cpython ∅ "TEST_DATABASE_INTEGRATION" (Some true)
    = Ok true.
Proof.
  assert (unset_or_empty ∅ "TEST_DATABASE_INTEGRATION") as Hu
    by (left; reflexivity).
  split; [exact Hu|].
  exact (proj2 (@bool_default_round_trip cpython ∅
                  "TEST_DATABASE_INTEGRATION" true Hu)).
Defined.

Lemma flag_value_witness :
  @_get_bool_env_variable cpython {["DEBUG_TRACEBACK" := "T"]}
    "DEBUG_TRACEBACK" (Some false) = Ok true
  ∧ ∃ e, @_get_bool_env_variable cpython {["DEBUG_TRACEBACK" := "on"]}
           "DEBUG_TRACEBACK" (Some false) = Err e.
Proof.
  split.
  - apply (@flag_value cpython {["DEBUG_TRACEBACK" := "T"]}
             "DEBUG_TRACEBACK" false).
    right. exists "T". split; [reflexivity|].
    apply truth_values_spec. right. left. reflexivity.
  - apply (@flag_value cpython {["DEBUG_TRACEBACK" := "on"]}
             "DEBUG_TRACEBACK" false).
    exists "on". split_and!; [reflexivity|discriminate| |].
    + rewrite truth_values_spec. intros [E|[E|E]]; discriminate E.
    + rewrite false_values_spec. intros [E|[E|E]]; discriminate E.
Defined.

Lemma flag_case_insensitive_witness :
  lower "true" = lower "TRUE"
  ∧ (@_get_bool_env_variable cpython (<["DEBUG_TRACEBACK" := "true"]> ∅)
       "DEBUG_TRACEBACK" (Some false) = Ok true
     ↔ @_get_bool_env_variable cpython (<["DEBUG_TRACEBACK" := "TRUE"]> ∅)
         "DEBUG_TRACEBACK" (Some false) = Ok true).
Proof.
  assert (lower "true" = lower "TRUE") as Hlow by reflexivity.
  assert ("true" ≠ "") as Hne by discriminate.
  split; [exact Hlow|].
  exact (proj1 (@flag_case_insensitive cpython ∅ "DEBUG_TRACEBACK"
                  (Some false) "true" "TRUE" Hlow Hne) true).
Defined.

Lemma accepted_spellings_witness :
  @cast_str_to_bool cpython "TrUe" = Ok true
  ∧ @cast_str_to_bool cpython "fALSe" = Ok false.
Proof.
  destruct (@accepted_spellings cpython "TrUe") as (Ht & _ & _).
  destruct (@accepted_spellings cpython "fALSe") as (_ & Hf & _).
  split.
  - apply Ht. repeat constructor.
  - apply Hf. apply elem_of_app. left. vm_compute. repeat constructor.
Defined.

Lemma class_body_succeeds_iff_witness :
  (∃ cfg, @EnvVariable_body cpython example_environ = Ok cfg)
  ∧ (∃ s, example_environ !! "FLOOD_MODEL_DIR" = Some s ∧ s ≠ "")
  ∧ flag_ok example_environ "DEBUG_TRACEBACK".
Proof.
  assert (∃ cfg, @EnvVariable_body cpython example_environ = Ok cfg) as Hok
    by (exists example_config; apply EnvVariable_body_example).
  destruct (proj1 (@class_body_succeeds_iff cpython example_environ) Hok)
    as [Hreq Hflag].
  split_and!; [exact Hok| |].
  - apply Hreq. unfold required_variables. repeat constructor.
  - apply Hflag. unfold flag_variables. repeat constructor.
Defined.

Lemma required_attributes_from_environ_witness :
  @EnvVariable_body cpython example_environ = Ok example_config
  ∧ STATSNZ_API_KEY example_config = example_environ !! "STATSNZ_API_KEY"
  ∧ _LAND_FILE example_config = example_environ !! "LAND_FILE".
Proof.
  pose proof (@EnvVariable_body_example cpython) as Hb.
  destruct (@required_attributes_from_environ cpython _ _ Hb) as [Hreq Hland].
  split_and!; [exact Hb| |exact Hland].
  assert (("STATSNZ_API_KEY", STATSNZ_API_KEY example_config)
          ∈ required_attributes example_config) as Hin
    by (unfold required_attributes; repeat constructor).
  exact (proj1 (Hreq _ _ Hin)).
Defined.

Lemma defaulted_attributes_spec_witness :
  @EnvVariable_body cpython example_environ = Ok example_config
  ∧ POSTGRES_DB example_config = Some "db"
  ∧ GEOSERVER_HOST example_config = Some "http://geoserver".
Proof.
  pose proof (@EnvVariable_body_example cpython) as Hb.
  pose proof (@defaulted_attributes_spec cpython _ _ Hb) as Hdef.
  split_and!; [exact Hb| |].
  - assert (("POSTGRES_DB", "db", POSTGRES_DB example_config)
            ∈ defaulted_attributes example_config) as Hin
      by (unfold defaulted_attributes; repeat constructor).
    destruct (Hdef _ _ _ Hin) as [Hunset _].
    apply Hunset. left. reflexivity.
  - assert (("GEOSERVER_HOST", "http://localhost", GEOSERVER_HOST example_config)
            ∈ defaulted_attributes example_config) as Hin
      by (unfold defaulted_attributes; repeat constructor).
    destruct (Hdef _ _ _ Hin) as [_ Hset].
    apply Hset; [reflexivity|discriminate].
Defined.

Lemma checked_attributes_nonempty_witness :
  @EnvVariable_body cpython example_environ = Ok example_config
  ∧ Forall (λ a, ∃ s, a = Some s ∧ s ≠ "") (checked_attributes example_config).
Proof.
  pose proof (@EnvVariable_body_example cpython) as Hb.
  split; [exact Hb|].
  exact (@checked_attributes_nonempty cpython _ _ Hb).
Defined.

Lemma class_body_error_sound_witness :
  ∃ e, @EnvVariable_body cpython
         (<["TEST_DATABASE_INTEGRATION" := "maybe"]> example_environ) = Err e
       ∧ (exn_cls e = KeyError ∨ exn_cls e = ValueError).
Proof.
  assert ({e | @EnvVariable_body cpython
                 (<["TEST_DATABASE_INTEGRATION" := "maybe"]> example_environ)
               = Err e}) as [e Hb]
    by (eexists; vm_compute; reflexivity).
  exists e. split; [exact Hb|].
  exact (proj2 (@class_body_error_sound cpython _ _ Hb)).
Defined.

Lemma class_body_reads_only_witness :
  @EnvVariable_body cpython (<["HOME" := "/root"]> example_environ)
  = @EnvVariable_body cpython example_environ.
Proof.
  apply (@class_body_reads_only cpython).
  intros n. unfold variables_read. rewrite !elem_of_cons, elem_of_nil.
  intros Hin; repeat destruct Hin as [->|Hin]; [..|destruct Hin];
    reflexivity.
Defined.

Lemma first_missing_variable_reported_witness :
  @EnvVariable_body cpython
    (delete "DATA_DIR_GEOSERVER" (delete "LINZ_API_KEY" example_environ))
  = Err (Raise KeyError
           ("Environment variable " +:+ "LINZ_API_KEY"
            +:+ " not set, and allow_empty is False")).
Proof.
  apply (@first_missing_variable_reported cpython _ ["STATSNZ_API_KEY"]
           ["MFE_API_KEY"; "NIWA_API_KEY";
            "DATA_DIR"; "DATA_DIR_MODEL_OUTPUT"; "DATA_DIR_GEOSERVER";
            "FLOOD_MODEL_DIR"; "POSTGRES_PASSWORD"; "LIDAR_DIR"; "DEM_DIR";
            "INSTRUCTIONS_FILE"]).
  - reflexivity.
  - intros m. unfold flag_variables. rewrite !elem_of_cons, elem_of_nil.
    intros [->|[->|[]]].
    + right. exists "1". split; [reflexivity|]. left.
      apply truth_values_spec. right. right. reflexivity.
    + left. left. reflexivity.
  - intros m. rewrite list_elem_of_singleton. intros ->.
    exists "s-key". split; [reflexivity|discriminate].
  - left. reflexivity.
Defined.
